(** * PoE2 ladder rank tracker: a shallow embedding of [main.py]

    The tracker polls a ladder API and writes one line of text for an
    overlay.  The embedding follows the source function by function:
    [get_league_name], [get_oauth_token], [get_character_rank],
    [write_output] and [main].

    - Strings are byte strings (a Python [str] is taken as its UTF-8
      encoding) and integers are [Z].
    - The values of a JSON body are the type [pyval]; floats are a
      parameter, with their truth value and their [str].
    - The program runs in a monad of state and exceptions.  The state holds
      the files, the logger's level and the trace of what the process did:
      lines printed, log records, requests, files opened, sleeps.  An
      exception leaves the state as it was when it was raised.
    - The network and the file system are an environment: the answer to
      the n-th request, and whether the n-th [open] succeeds.
    - [while True] runs for as many cycles as the operator allows before
      the interrupt; a sleep records its length in milliseconds, where the
      source divides by 1000 into a float. *)

From Stdlib Require Import ZArith List Ascii String DecimalString Bool Lia.
From stdpp Require Import base strings gmap.
Import ListNotations.

Set Warnings "-register-all".

Local Open Scope string_scope.
Local Open Scope Z_scope.

(** ** Bracket resolver: [get_league_name] *)

Definition get_league_name (gamemode : string) (use_doth : bool) : string :=
  if use_doth then
    if String.eqb gamemode "standard" then "Dawn of the Hunt"
    else if String.eqb gamemode "hc" then "HC Dawn of the Hunt"
    else if String.eqb gamemode "ssf" then "SSF Dawn of the Hunt"
    else if String.eqb gamemode "hcssf" then "HC SSF Dawn of the Hunt"
    else "Unknown"
  else
    if String.eqb gamemode "standard" then "Standard"
    else if String.eqb gamemode "hc" then "Hardcore"
    else if String.eqb gamemode "ssf" then "Solo Self-Found"
    else if String.eqb gamemode "hcssf" then "Hardcore SSF"
    else "Unknown".

(** ** Exceptions and results *)

Inductive exn :=
| ValueError | AttributeError | TypeError | OSError | RequestException
| OverflowError
| KeyboardInterrupt.

(** [except Exception] catches everything but the operator's interrupt. *)
Definition is_Exception (e : exn) : bool :=
  match e with KeyboardInterrupt => false | _ => true end.

Definition is_ValueError (e : exn) : bool :=
  match e with ValueError => true | _ => false end.

Inductive res (A : Type) : Type :=
| Val (a : A)
| Exc (e : exn).
Arguments Val {A} a.
Arguments Exc {A} e.

(** ** Strings: [str] of an integer, header names, URLs *)

Definition str_of_Z (n : Z) : string := NilZero.string_of_int (Z.to_int n).

Definition lower_ascii (c : ascii) : ascii :=
  let n := nat_of_ascii c in
  if ((65 <=? n) && (n <=? 90))%nat then ascii_of_nat (n + 32) else c.

Fixpoint lower (s : string) : string :=
  match s with
  | EmptyString => ""
  | String c s' => String (lower_ascii c) (lower s')
  end.

(** Header names compare without regard to case. *)
Fixpoint header_get (k : string) (h : list (string * string)) : option string :=
  match h with
  | [] => None
  | (k', v) :: h' =>
      if String.eqb (lower k') (lower k) then Some v else header_get k h'
  end.

(** ** [urllib.parse.quote] with its default [safe='/'] *)

Definition always_safe (c : ascii) : bool :=
  let n := nat_of_ascii c in
  ((65 <=? n) && (n <=? 90) || (97 <=? n) && (n <=? 122)
   || (48 <=? n) && (n <=? 57))%nat
  || Ascii.eqb c "_" || Ascii.eqb c "." || Ascii.eqb c "-" || Ascii.eqb c "~".

Definition hex_digit (n : nat) : ascii :=
  if (n <? 10)%nat then ascii_of_nat (48 + n) else ascii_of_nat (55 + n).

Definition quote_byte (c : ascii) : string :=
  if always_safe c || Ascii.eqb c "/" then String c ""
  else
    let n := nat_of_ascii c in
    String "%" (String (hex_digit (n / 16)) (String (hex_digit (n mod 16)) "")).

Fixpoint quote_str (s : string) : string :=
  match s with
  | EmptyString => ""
  | String c s' => quote_byte c ++ quote_str s'
  end.

(** ** Constants of the source *)

Definition DEBUG : Z := 10.
Definition INFO : Z := 20.
Definition WARNING : Z := 30.
Definition ERROR : Z := 40.

Definition token_url : string := "https://www.pathofexile.com/oauth/token".

Definition user_agent : string :=
  "OAuth PoE2-Ladder-Rank-Tracker/1.0.0 (contact: your-email@example.com)".

Definition base_url : string := "https://api.pathofexile.com".

Definition leagues_url : string := base_url ++ "/league?realm=poe2".

Definition ladder_url (encoded_league : string) : string :=
  base_url ++ "/league/" ++ encoded_league ++ "/ladder?realm=poe2&limit=200".

Definition disclaimer : string :=
  "This product isn't affiliated with or endorsed by Grinding Gear Games in any way.".

(** The bounds of the interval.  An [int] divided by 1000 is a float when
    the quotient, rounded to the nearest double, is finite: in absolute
    value the milliseconds stay below [float_limit].  [time.sleep] takes a
    length whose nanoseconds fit a signed 64-bit integer: in absolute
    value the milliseconds stay below [sleep_limit], which is 2^63 / 10^6
    rounded up. *)
Definition float_limit : Z := 1000 * (2 ^ 1024 - 2 ^ 970).
Definition sleep_limit : Z := 9223372036855.

(** A block of the function either falls through with a value or makes
    the function return. *)
Inductive step (A R : Type) : Type :=
| Continue (a : A)
| Return (r : R).
Arguments Continue {A R} a.
Arguments Return {A R} r.

(** A world without floats, to run the program in. *)
Definition no_float_truthy (f : Empty_set) : bool := match f with end.
Definition no_float_str (f : Empty_set) : string := match f with end.

Section Tracker.

(** ** Python values

    The values a parsed JSON body can hold.  A dict is an association
    list in insertion order whose keys are distinct (the parser keeps one
    binding per key); [assoc] reads the first binding.

    Python floats enter only through JSON bodies; the tracker uses nothing
    of them but their truth value and their [str]. *)
Context {pyfloat : Type}.
Variable float_truthy : pyfloat -> bool.
Variable float_str : pyfloat -> string.

Inductive pyval : Type :=
| PNone
| PBool (b : bool)
| PInt (n : Z)
| PFloat (f : pyfloat)
| PStr (s : string)
| PList (l : list pyval)
| PDict (d : list (string * pyval)).

(** [str] of a list or a dict (their [repr]), and [json.dumps(v, indent=2)]. *)
Variable container_str : pyval -> string.
Variable json_dumps : pyval -> string.

(** Truth value of an object, as [if v] and [not v] test it. *)
Definition truthy (v : pyval) : bool :=
  match v with
  | PNone => false
  | PBool b => b
  | PInt n => negb (n =? 0)
  | PFloat f => float_truthy f
  | PStr s => negb (String.eqb s "")
  | PList l => match l with [] => false | _ :: _ => true end
  | PDict d => match d with [] => false | _ :: _ => true end
  end.

(** What an f-string substitutes for [{v}]. *)
Definition py_str (v : pyval) : string :=
  match v with
  | PNone => "None"
  | PBool true => "True"
  | PBool false => "False"
  | PInt n => str_of_Z n
  | PFloat f => float_str f
  | PStr s => s
  | PList _ | PDict _ => container_str v
  end.

(** [v == s] for a [str] s: only an equal [str] compares equal. *)
Definition eq_str (v : pyval) (s : string) : bool :=
  match v with
  | PStr t => String.eqb t s
  | _ => false
  end.

(** An [argparse] option that is [None] when not given. *)
Definition of_option (o : option string) : pyval :=
  match o with
  | Some s => PStr s
  | None => PNone
  end.

Fixpoint assoc (k : string) (d : list (string * pyval)) : option pyval :=
  match d with
  | [] => None
  | (k', v) :: d' => if String.eqb k' k then Some v else assoc k d'
  end.

Definition get_default (d : list (string * pyval)) (k : string)
    (dflt : pyval) : pyval :=
  match assoc k d with
  | Some x => x
  | None => dflt
  end.

(** [v.get(k, dflt)]: only a dict has [get]. *)
Definition dict_get (v : pyval) (k : string) (dflt : pyval) : res pyval :=
  match v with
  | PDict d => Val (get_default d k dflt)
  | _ => Exc AttributeError
  end.

(** The items a [for] loop over [v] visits.  A dict yields its keys and a
    [str] its characters (here its bytes: all that matters below is that
    each one is a [str]); the other values are not iterable. *)
Definition py_iter (v : pyval) : res (list pyval) :=
  match v with
  | PList l => Val l
  | PDict d => Val (map (fun kv => PStr (fst kv)) d)
  | PStr s => Val (map (fun c => PStr (String c "")) (list_ascii_of_string s))
  | _ => Exc TypeError
  end.

Definition quote (v : pyval) : res string :=
  match v with
  | PStr s => Val (quote_str s)
  | _ => Exc TypeError
  end.

(** ** The outside world: HTTP, files, the log

    A response as [requests] hands it over.  [json_body] is what
    [response.json()] returns, [None] when the body is not JSON and the
    call raises a [ValueError]. *)

Record response := {
  status_code : Z;
  headers : list (string * string);
  text : string;
  json_body : option pyval
}.

Definition response_json (r : response) : res pyval :=
  match json_body r with
  | Some v => Val v
  | None => Exc ValueError
  end.

Inductive request :=
| POST (url : string) (hdrs : list (string * string))
       (data : list (string * pyval))
| GET (url : string) (hdrs : list (string * string)).

(** A request is answered, or [requests] raises (no route, timeout, ...). *)
Inductive net_result :=
| Answer (r : response)
| NetworkFault.

(** Log records, one constructor per logging call of the source, with the
    values its message interpolates ([MsgWaiting] with the milliseconds,
    where the source prints the seconds; a body that the source cuts at
    500 characters is cut at 500 bytes). *)
Inductive logmsg :=
| MsgCredentialsRequired
| MsgRequestingToken
| MsgTokenStatus (code : Z)
| MsgResponseContent (body : string)
| MsgTokenObtained
| MsgTokenError (e : exn)
| MsgCheckingLadder (league_name : string)
| MsgNoToken
| MsgFetchingLeagues (url : string)
| MsgLeaguesStatus (code : Z)
| MsgLeagueNotActive (league_name : string)
| MsgLeaguesError (e : exn)
| MsgFetchingLadder (url : string)
| MsgRateLimitState (v : string)
| MsgRateLimited (retry_after : string)
| MsgApiFailed (code : Z)
| MsgLeagueNotFound (league_name : string)
| MsgSavedDump
| MsgNoEntries
| MsgFound (character_name : string) (rank level : pyval)
           (status : option string)
| MsgCharacterNotFound (character_name : string)
| MsgJsonError (e : exn)
| MsgApiError (e : exn)
| MsgUpdated (content : string)
| MsgWroteEmpty
| MsgWriteError (e : exn)
| MsgCouldNotObtainToken
| MsgVisitDocs
| MsgRunWithCredentials
| MsgStarting (character_name : string)
| MsgGameMode (gamemode league_name : string)
| MsgInterval (update_interval_ms : Z) (output_file : string)
| MsgWaiting (update_interval_ms : Z)
| MsgStopped
| MsgUnexpected (e : exn).

(** What the process does to the world, one event per action. *)
Inductive event :=
| EvPrint (line : string)
| EvLog (lvl : Z) (m : logmsg)
| EvRequest (rq : request)
| EvOpen (path : string)
| EvSleep (update_interval_ms : Z)
| EvTraceback.

Definition is_request (e : event) : bool :=
  match e with EvRequest _ => true | _ => false end.

Definition is_open (e : event) : bool :=
  match e with EvOpen _ => true | _ => false end.

Definition is_sleep (e : event) : bool :=
  match e with EvSleep _ => true | _ => false end.

(** The machine state: the files written so far, the level of the root
    logger and whether [basicConfig] has installed its handler, and the
    events so far, the latest first. *)
Record state := {
  fs : gmap string string;
  log_level : Z;
  log_configured : bool;
  trace : list event
}.

Definition count_events (p : event -> bool) (s : state) : nat :=
  List.length (List.filter p (trace s)).

(** How many requests were sent, how many files were opened, how many
    times the process has slept. *)
Definition nreq (s : state) : nat := count_events is_request s.
Definition nopen (s : state) : nat := count_events is_open s.
Definition nsleep (s : state) : nat := count_events is_sleep s.

(** The state after one more event. *)
Definition push (e : event) (s : state) : state :=
  {| fs := fs s; log_level := log_level s;
     log_configured := log_configured s; trace := e :: trace s |}.

(** A record is handled when its level reaches the logger's. *)
Definition logged (lvl : Z) (m : logmsg) (s : state) : state :=
  if log_level s <=? lvl then push (EvLog lvl m) s else s.

(** The state after [content] replaced the file at [path]. *)
Definition stored (path content : string) (s : state) : state :=
  {| fs := <[path := content]> (fs s); log_level := log_level s;
     log_configured := log_configured s; trace := trace s |}.

(** [logging.basicConfig(level=...)] sets the level of the root logger, and
    does nothing once the root logger has a handler. *)
Definition configured (debug : bool) (s : state) : state :=
  if log_configured s then s
  else {| fs := fs s; log_level := if debug then DEBUG else INFO;
          log_configured := true; trace := trace s |}.

(** The environment answers the n-th request, lets the n-th [open]
    succeed or fail, and lets the process sleep for the n-th time or
    refuses the length.  The program is deterministic, so an answer that
    depended on the request itself would add nothing. *)
Variable net : nat -> net_result.
Variable io_ok : nat -> bool.
Variable sleep_ok : nat -> bool.

(** ** The monad of the embedding: state, and exceptions that keep it *)

Definition M (A : Type) : Type := state -> res A * state.

Definition ret {A} (a : A) : M A := fun s => (Val a, s).

Definition bind {A B} (c : M A) (k : A -> M B) : M B :=
  fun s =>
    match c s with
    | (Val a, s') => k a s'
    | (Exc e, s') => (Exc e, s')
    end.

Definition raise {A} (e : exn) : M A := fun s => (Exc e, s).

Definition lift {A} (r : res A) : M A := fun s => (r, s).

(** [try: c  except <caught> as e: h e] *)
Definition try_except {A} (c : M A) (caught : exn -> bool) (h : exn -> M A)
  : M A :=
  fun s =>
    match c s with
    | (Exc e, s') => if caught e then h e s' else (Exc e, s')
    | r => r
    end.

Notation "x <- c ;; k" := (bind c (fun x => k))
  (at level 20, c at level 99, k at level 200, only parsing).
Notation "c ;; k" := (bind c (fun _ => k))
  (at level 100, k at level 200, right associativity, only parsing).

Definition when (b : bool) (c : M unit) : M unit :=
  if b then c else ret tt.

Definition emit (e : event) : M unit := fun s => (Val tt, push e s).

Definition log (lvl : Z) (m : logmsg) : M unit :=
  fun s => (Val tt, logged lvl m s).

Definition effective_level : M Z := fun s => (Val (log_level s), s).

Definition traceback_print_exc : M unit := emit EvTraceback.

(** [requests.post] and [requests.get] *)
Definition send (rq : request) : M response :=
  fun s =>
    match net (nreq s) with
    | Answer r => (Val r, push (EvRequest rq) s)
    | NetworkFault => (Exc RequestException, push (EvRequest rq) s)
    end.

(** [with open(path, 'w', encoding='utf-8') as f: f.write(content)] *)
Definition write_file (path content : string) : M unit :=
  fun s =>
    if io_ok (nopen s) then
      (Val tt, push (EvOpen path) (stored path content s))
    else (Exc OSError, push (EvOpen path) s).

(** Line 309, [update_interval_ms / 1000]: the division raises
    [OverflowError] when the quotient is too large for a float.  The float
    is a function of the milliseconds, which stand for it in the records
    and events that carry it. *)
Definition seconds (update_interval_ms : Z) : M unit :=
  if float_limit <=? Z.abs update_interval_ms then raise OverflowError
  else ret tt.

(** [time.sleep(update_interval_sec)]: a length that does not fit the
    clock is an [OverflowError], a negative one a [ValueError]; the system
    may still refuse the call, with an [OSError].  The event keeps the
    milliseconds. *)
Definition sleep (update_interval_ms : Z) : M unit :=
  if sleep_limit <=? Z.abs update_interval_ms then raise OverflowError
  else if update_interval_ms <? 0 then raise ValueError
  else
    fun s =>
      if sleep_ok (nsleep s) then (Val tt, push (EvSleep update_interval_ms) s)
      else (Exc OSError, s).

Definition configure_logging (debug : bool) : M unit :=
  fun s => (Val tt, configured debug s).

(** ** Token acquirer: [get_oauth_token] *)

Definition get_oauth_token (client_id client_secret : option string)
  : M pyval :=
  if negb (truthy (of_option client_id))
     || negb (truthy (of_option client_secret)) then
    log ERROR MsgCredentialsRequired ;;
    ret PNone
  else
    let hdrs := [("Content-Type", "application/x-www-form-urlencoded");
                 ("User-Agent", user_agent)] in
    let data := [("client_id", of_option client_id);
                 ("client_secret", of_option client_secret);
                 ("grant_type", PStr "client_credentials");
                 ("scope", PStr "service:leagues service:leagues:ladder")] in
    try_except
      (log DEBUG MsgRequestingToken ;;
       response <- send (POST token_url hdrs data) ;;
       if negb (status_code response =? 200) then
         log ERROR (MsgTokenStatus (status_code response)) ;;
         log DEBUG (MsgResponseContent (text response)) ;;
         ret PNone
       else
         token_data <- lift (response_json response) ;;
         log DEBUG MsgTokenObtained ;;
         lift (dict_get token_data "access_token" PNone))
      is_Exception
      (fun e =>
         log ERROR (MsgTokenError e) ;;
         lvl <- effective_level ;;
         when (lvl =? DEBUG) traceback_print_exc ;;
         ret PNone).

(** ** Bracket lookup and entry search: [get_character_rank] *)

(** The dict the search returns: keys [level], [rank] and [status]. *)
Record character_data := {
  level : pyval;
  rank : pyval;
  status : option string
}.

(** Lines 149-155: the scan of the listing; [league_id] stays [None] when
    no name matches. *)
Fixpoint find_league (league_name : string) (leagues_list : list pyval)
  : res pyval :=
  match leagues_list with
  | [] => Val PNone
  | league :: rest =>
      match dict_get league "name" PNone with
      | Exc e => Exc e
      | Val name =>
          if eq_str name league_name then dict_get league "id" PNone
          else find_league league_name rest
      end
  end.

(** Lines 138-159: the body of the inner [try]. *)
Definition fetch_league_id (league_name leagues_url : string)
    (hdrs : list (string * string))
  : M (step pyval (option character_data)) :=
  leagues_response <- send (GET leagues_url hdrs) ;;
  if negb (status_code leagues_response =? 200) then
    log ERROR (MsgLeaguesStatus (status_code leagues_response)) ;;
    log DEBUG (MsgResponseContent
                 (substring 0 500 (text leagues_response) ++ "...")) ;;
    ret (Return None)
  else
    leagues_data <- lift (response_json leagues_response) ;;
    leagues_list <- lift (dict_get leagues_data "leagues" (PList [])) ;;
    leagues <- lift (py_iter leagues_list) ;;
    league_id <- lift (find_league league_name leagues) ;;
    if negb (truthy league_id) then
      log ERROR (MsgLeagueNotActive league_name) ;;
      ret (Return None)
    else ret (Continue league_id).

(** Lines 137-165: the inner [try] with its [except Exception], which
    takes the name for the id. *)
Definition bracket_lookup (league_name leagues_url : string)
    (hdrs : list (string * string))
  : M (step pyval (option character_data)) :=
  try_except (fetch_league_id league_name leagues_url hdrs)
    is_Exception
    (fun e =>
       log ERROR (MsgLeaguesError e) ;;
       ret (Continue (PStr league_name))).

(** Lines 214-246: the scan of the ladder entries and what follows it. *)
Fixpoint search_entries (character_name : string) (entries : list pyval)
  : M (option character_data) :=
  match entries with
  | [] =>
      log WARNING (MsgCharacterNotFound character_name) ;;
      ret None
  | entry :: rest =>
      character <- lift (dict_get entry "character" (PDict [])) ;;
      entry_name <- lift (dict_get character "name" (PStr "")) ;;
      if eq_str entry_name character_name then
        level <- lift (dict_get character "level" (PStr "Unknown")) ;;
        rank <- lift (dict_get entry "rank" (PStr "Unknown")) ;;
        dead <- lift (dict_get character "dead" (PBool false)) ;;
        status <- (if truthy dead then ret (Some "DEAD")
                   else
                     retired <- lift (dict_get character "retired"
                                        (PBool false)) ;;
                     ret (if truthy retired then Some "RETIRED" else None)) ;;
        let character_data :=
          {| level := level; rank := rank; status := status |} in
        log INFO (MsgFound character_name rank level status) ;;
        ret (Some character_data)
      else search_entries character_name rest
  end.

(** Lines 195-250: the [try] around the parsed ladder, with its
    [except ValueError]. *)
Definition search_ladder (character_name : string) (response : response)
  : M (option character_data) :=
  try_except
    (ladder_data <- lift (response_json response) ;;
     lvl <- effective_level ;;
     when (lvl =? DEBUG)
       (write_file "ladder_debug.json" (json_dumps ladder_data) ;;
        log DEBUG MsgSavedDump) ;;
     ladder_obj <- lift (dict_get ladder_data "ladder" (PDict [])) ;;
     entries <- lift (dict_get ladder_obj "entries" (PList [])) ;;
     if negb (truthy entries) then
       log WARNING MsgNoEntries ;;
       ret None
     else
       entries <- lift (py_iter entries) ;;
       search_entries character_name entries)
    is_ValueError
    (fun e =>
       log ERROR (MsgJsonError e) ;;
       ret None).

(** Lines 167-250: from the league id to the result. *)
Definition entry_search (league_name character_name : string)
    (hdrs : list (string * string)) (league_id : pyval)
  : M (option character_data) :=
  encoded_league <- lift (quote league_id) ;;
  log DEBUG (MsgFetchingLadder (ladder_url encoded_league)) ;;
  response <- send (GET (ladder_url encoded_league) hdrs) ;;
  match header_get "X-Rate-Limit-Client-State" (headers response) with
  | Some v => log DEBUG (MsgRateLimitState v)
  | None => ret tt
  end ;;
  if status_code response =? 429 then
    let retry_after :=
      match header_get "Retry-After" (headers response) with
      | Some v => v
      | None => "60"
      end in
    log WARNING (MsgRateLimited retry_after) ;;
    ret None
  else if negb (status_code response =? 200) then
    log ERROR (MsgApiFailed (status_code response)) ;;
    log DEBUG (MsgResponseContent
                 (substring 0 500 (text response) ++ "...")) ;;
    when (status_code response =? 404)
      (log ERROR (MsgLeagueNotFound league_name)) ;;
    ret None
  else search_ladder character_name response.

(** Lines 126-130: the headers of both requests. *)
Definition api_headers (access_token : pyval) : list (string * string) :=
  [("User-Agent", user_agent);
   ("Accept", "application/json");
   ("Authorization", "Bearer " ++ py_str access_token)].

Definition get_character_rank (league_name character_name : string)
    (access_token : pyval) : M (option character_data) :=
  log INFO (MsgCheckingLadder league_name) ;;
  if negb (truthy access_token) then
    log ERROR MsgNoToken ;;
    ret None
  else
    let hdrs := api_headers access_token in
    try_except
      (log DEBUG (MsgFetchingLeagues leagues_url) ;;
       looked_up <- bracket_lookup league_name leagues_url hdrs ;;
       match looked_up with
       | Return r => ret r
       | Continue league_id =>
           entry_search league_name character_name hdrs league_id
       end)
      is_Exception
      (fun e =>
         log ERROR (MsgApiError e) ;;
         lvl <- effective_level ;;
         when (lvl =? DEBUG) traceback_print_exc ;;
         ret None).

(** ** Output writer: [write_output] *)

Definition status_truthy (st : option string) : bool :=
  truthy (of_option st).

(** Lines 264-267: the line of text for a found entry. *)
Definition format_content (character_data : character_data)
    (ladder_name : string) : string :=
  if status_truthy (status character_data) then
    "Level: " ++ py_str (level character_data) ++ " | Rank: ["
      ++ py_str (of_option (status character_data)) ++ "] "
      ++ py_str (rank character_data) ++ " | " ++ ladder_name
  else
    "Level: " ++ py_str (level character_data) ++ " | Rank: "
      ++ py_str (rank character_data) ++ " | " ++ ladder_name.

(** The result is [None] or a dict of three keys, which is truthy. *)
Definition write_output (output_file : string)
    (character_data : option character_data) (ladder_name : string)
  : M unit :=
  try_except
    match character_data with
    | Some character_data =>
        let content := format_content character_data ladder_name in
        write_file output_file content ;;
        log INFO (MsgUpdated content)
    | None =>
        write_file output_file "" ;;
        log INFO MsgWroteEmpty
    end
    is_Exception
    (fun e => log ERROR (MsgWriteError e)).

(** ** Poll loop: [main] *)

(** What [parse_arguments] returns. *)
Record args := {
  character_name : string;
  gamemode : string;
  doth : bool;
  update : Z;
  output : string;
  debug : bool;
  client_id : option string;
  client_secret : option string
}.

(** Lines 319-323: the body of the [while True] loop. *)
Definition cycle (league_name character_name : string) (access_token : pyval)
    (output_file : string) (update_interval_ms : Z) : M unit :=
  character_data <- get_character_rank league_name character_name
                      access_token ;;
  write_output output_file character_data league_name ;;
  log INFO (MsgWaiting update_interval_ms) ;;
  sleep update_interval_ms.

(** The loop never ends by itself; the operator's interrupt arrives after
    [fuel] whole cycles. *)
Fixpoint poll_loop (fuel : nat) (league_name character_name : string)
    (access_token : pyval) (output_file : string) (update_interval_ms : Z)
  : M unit :=
  match fuel with
  | O => raise KeyboardInterrupt
  | S fuel' =>
      cycle league_name character_name access_token output_file
        update_interval_ms ;;
      poll_loop fuel' league_name character_name access_token output_file
        update_interval_ms
  end.

Definition main (a : args) (fuel : nat) : M unit :=
  emit (EvPrint disclaimer) ;;
  configure_logging (debug a) ;;
  access_token <- get_oauth_token (client_id a) (client_secret a) ;;
  if negb (truthy access_token) then
    log ERROR MsgCouldNotObtainToken ;;
    log ERROR MsgVisitDocs ;;
    log ERROR MsgRunWithCredentials ;;
    ret tt
  else
    seconds (update a) ;;
    let league_name := get_league_name (gamemode a) (doth a) in
    log INFO (MsgStarting (character_name a)) ;;
    log INFO (MsgGameMode (gamemode a) league_name) ;;
    log INFO (MsgInterval (update a) (output a)) ;;
    try_except
      (poll_loop fuel league_name (character_name a) access_token
         (output a) (update a))
      (fun _ => true)
      (fun e =>
         match e with
         | KeyboardInterrupt => log INFO MsgStopped
         | _ =>
             log ERROR (MsgUnexpected e) ;;
             when (debug a) traceback_print_exc
         end).

(** ** Vocabulary of the statements

    What the statements below say about the inputs, in the terms of the
    source. *)

(** The requests sent so far, the latest first. *)
Definition requests (s : state) : list event :=
  filter is_request (trace s).

(** A computation that sends exactly the requests [sent], the latest
    first, whatever else it does. *)
Definition sends {A} (sent : list event) (c : M A) : Prop :=
  forall s, requests (snd (c s)) = (sent ++ requests s)%list.

(** An option that was not given, or given empty. *)
Definition missing (o : option string) : Prop := o = None \/ o = Some "".

(** Lines 216-217: the name an entry carries. *)
Definition entry_name (entry : pyval) : res pyval :=
  match dict_get entry "character" (PDict []) with
  | Val character => dict_get character "name" (PStr "")
  | Exc e => Exc e
  end.

(** The scan of line 214 stops at this entry. *)
Definition entry_named (character_name : string) (entry : pyval) : bool :=
  match entry_name entry with
  | Val n => eq_str n character_name
  | Exc _ => false
  end.

(** The scan of line 214 steps over this entry: it has a name, another one. *)
Definition entry_passed (character_name : string) (entry : pyval) : bool :=
  match entry_name entry with
  | Val n => negb (eq_str n character_name)
  | Exc _ => false
  end.

(** Lines 196, 206 and 207: the entries a ladder response holds. *)
Definition ladder_entries (r : response) : res pyval :=
  match response_json r with
  | Val ladder_data =>
      match dict_get ladder_data "ladder" (PDict []) with
      | Val ladder_obj => dict_get ladder_obj "entries" (PList [])
      | Exc e => Exc e
      end
  | Exc e => Exc e
  end.

(** Lines 146-155: the id the listing gives for a name. *)
Definition listed_id (league_name : string) (r : response) : res pyval :=
  match response_json r with
  | Val leagues_data =>
      match dict_get leagues_data "leagues" (PList []) with
      | Val leagues_list =>
          match py_iter leagues_list with
          | Val leagues => find_league league_name leagues
          | Exc e => Exc e
          end
      | Exc e => Exc e
      end
  | Exc e => Exc e
  end.

(** How the request for the listing can end, and what the lookup makes of
    it: the id to go on with, or the return of the function. *)
Inductive listing_case (league_name : string)
  : net_result -> step pyval (option character_data) -> Prop :=
| listing_fault :
    listing_case league_name NetworkFault (Continue (PStr league_name))
| listing_bad_shape r e :
    status_code r = 200 -> listed_id league_name r = Exc e ->
    listing_case league_name (Answer r) (Continue (PStr league_name))
| listing_found r league_id :
    status_code r = 200 -> listed_id league_name r = Val league_id ->
    truthy league_id = true ->
    listing_case league_name (Answer r) (Continue league_id)
| listing_bad_status r :
    status_code r <> 200 ->
    listing_case league_name (Answer r) (Return None)
| listing_no_match r league_id :
    status_code r = 200 -> listed_id league_name r = Val league_id ->
    truthy league_id = false ->
    listing_case league_name (Answer r) (Return None).

(** An option was given, and not empty. *)
Definition given (o : option string) : Prop :=
  exists v, o = Some v /\ v <> "".

(** Line 181: the advertised delay, ['60'] when the header is absent. *)
Definition retry_after (r : response) : string :=
  match header_get "Retry-After" (headers r) with
  | Some v => v
  | None => "60"
  end.

(** Lines 177-178: the debug record of the rate-limit state. *)
Definition rate_limit_state_logged (r : response) (s : state) : state :=
  match header_get "X-Rate-Limit-Client-State" (headers r) with
  | Some v => logged DEBUG (MsgRateLimitState v) s
  | None => s
  end.

(** A block ends without a result: it returns [None], or raises what the
    [except Exception] of line 252 turns into [None]. *)
Definition no_result (o : res (option character_data)) : Prop :=
  o = Val None \/ exists e, o = Exc e /\ is_Exception e = true.

(** The ways a ladder response holds no result for the character. *)
Inductive ladder_failure (character_name : string) (r : response) : Prop :=
| RateLimited :
    status_code r = 429 -> ladder_failure character_name r
| NotFoundBracket :
    status_code r = 404 -> ladder_failure character_name r
| RequestFailure :
    status_code r <> 200 -> ladder_failure character_name r
| MalformedJson :
    json_body r = None -> ladder_failure character_name r
| EmptyListing entries :
    ladder_entries r = Val entries -> truthy entries = false ->
    ladder_failure character_name r
| NoMatch entries items :
    ladder_entries r = Val entries -> py_iter entries = Val items ->
    forallb (fun entry => negb (entry_named character_name entry)) items
      = true ->
    ladder_failure character_name r.

(** ** Vocabulary of the further properties *)

(** Line 29: the modes [--gamemode] accepts. *)
Definition gamemodes : list string := ["standard"; "hc"; "ssf"; "hcssf"].

(** Lines 52-66: the request for the token. *)
Definition token_request (client_id client_secret : option string)
  : request :=
  POST token_url
    [("Content-Type", "application/x-www-form-urlencoded");
     ("User-Agent", user_agent)]
    [("client_id", of_option client_id);
     ("client_secret", of_option client_secret);
     ("grant_type", PStr "client_credentials");
     ("scope", PStr "service:leagues service:leagues:ladder")].

(** The ways the token endpoint leaves the process without a token. *)
Inductive token_failure : net_result -> Prop :=
| token_fault : token_failure NetworkFault
| token_bad_status r :
    status_code r <> 200 -> token_failure (Answer r)
| token_not_json r :
    status_code r = 200 -> json_body r = None -> token_failure (Answer r)
| token_not_object r v :
    status_code r = 200 -> json_body r = Some v ->
    dict_get v "access_token" PNone = Exc AttributeError ->
    token_failure (Answer r)
| token_falsy r d :
    status_code r = 200 -> json_body r = Some (PDict d) ->
    truthy (get_default d "access_token" PNone) = false ->
    token_failure (Answer r).

(** Lines 221-235: the result derived from an entry [e] whose character
    is [c]. *)
Definition found_from (e c : list (string * pyval)) : character_data :=
  {| level := get_default c "level" (PStr "Unknown");
     rank := get_default e "rank" (PStr "Unknown");
     status :=
       if truthy (get_default c "dead" (PBool false)) then Some "DEAD"
       else if truthy (get_default c "retired" (PBool false))
            then Some "RETIRED"
            else None |}.

(** The scan of line 152 steps over this league: it has another name. *)
Definition league_passed (league_name : string) (league : pyval) : bool :=
  match dict_get league "name" PNone with
  | Val name => negb (eq_str name league_name)
  | Exc _ => false
  end.

(** A computation that raises nothing but what [allowed] admits. *)
Definition raises_only {A} (allowed : exn -> bool) (c : M A) : Prop :=
  forall s e, fst (c s) = Exc e -> allowed e = true.

Definition no_exn (e : exn) : bool := false.

(** A pure step raises nothing but an [Exception]. *)
Definition pure_exn {A} (r : res A) : Prop :=
  forall e, r = Exc e -> is_Exception e = true.

(** A computation that leaves every state related by [R] to the state it
    started in. *)
Definition preserves {A} (R : state -> state -> Prop) (c : M A) : Prop :=
  forall s, R s (snd (c s)).

(** The files outside [touched] are as they were. *)
Definition same_files (touched : list string) (s s' : state) : Prop :=
  forall path, ~ In path touched -> fs s' !! path = fs s !! path.

(** The events that open the file at [path], and how many times the
    process has opened it. *)
Definition opens_of (path : string) (e : event) : bool :=
  match e with
  | EvOpen p => String.eqb p path
  | _ => false
  end.

Definition nwrites (path : string) (s : state) : nat :=
  count_events (opens_of path) s.

(** As many events of the kind [p] as before. *)
Definition same_count (p : event -> bool) (s s' : state) : Prop :=
  count_events p s' = count_events p s.

(** No file was opened or changed, and the process has not slept. *)
Definition idle (s s' : state) : Prop :=
  fs s' = fs s /\ nopen s' = nopen s /\ nsleep s' = nsleep s.

(** From a logger that is not at the debug level: the logger does not
    reach that level, and no file but the output file changes. *)
Definition no_dump (output_file : string) (s s' : state) : Prop :=
  log_level s <> DEBUG ->
  log_level s' <> DEBUG /\ same_files [output_file] s s'.

(** ** Sample worlds

    Bodies of the shape the API documents, and environments that give
    their answers in order. *)

Definition answers_in_order (answers : list net_result) : nat -> net_result :=
  fun n => nth n answers NetworkFault.

Definition body (code : Z) (v : pyval) : response :=
  {| status_code := code; headers := []; text := ""; json_body := Some v |}.

Definition not_json (code : Z) (page : string) : response :=
  {| status_code := code; headers := []; text := page; json_body := None |}.

Definition sample_headers : list (string * string) :=
  [("User-Agent", user_agent); ("Accept", "application/json");
   ("Authorization", "Bearer secret-token")].

Definition sample_token : pyval :=
  PDict [("access_token", PStr "secret-token"); ("expires_in", PNone)].

Definition empty_token : pyval :=
  PDict [("access_token", PStr ""); ("token_type", PStr "bearer")].

Definition sample_leagues : pyval :=
  PDict [("leagues",
          PList [PDict [("id", PStr "Hardcore"); ("name", PStr "Hardcore")];
                 PDict [("id", PStr "Standard"); ("name", PStr "Standard")]])].

Definition other_leagues : pyval :=
  PDict [("leagues",
          PList [PDict [("id", PStr "Hardcore"); ("name", PStr "Hardcore")]])].

Definition entry_of (name : string) (rank level : Z)
    (flags : list (string * pyval)) : pyval :=
  PDict [("rank", PInt rank);
         ("character",
          PDict (("name", PStr name) :: ("level", PInt level) :: flags))].

Definition sample_entries : list pyval :=
  [entry_of "Alpha" 1 100 [];
   entry_of "Hero" 5 92 [("dead", PBool true)];
   entry_of "Omega" 6 91 [("retired", PBool true)]].

Definition sample_ladder : pyval :=
  PDict [("ladder", PDict [("entries", PList sample_entries)])].

Definition empty_ladder : pyval :=
  PDict [("ladder", PDict [("entries", PList [])])].

Definition alpha_ladder : pyval :=
  PDict [("ladder", PDict [("entries", PList [entry_of "Alpha" 1 100 []])])].

(** An entry with a name and nothing else. *)
Definition ghost_ladder : pyval :=
  PDict [("ladder",
          PDict [("entries",
                  PList [PDict [("character",
                                 PDict [("name", PStr "Ghost")])]])])].

Definition rate_limited : response :=
  {| status_code := 429; headers := [("Retry-After", "120")];
     text := "Too Many Requests"; json_body := None |}.

(** A cycle whose listing holds the league and whose ladder answers [r]. *)
Definition listing_then (r : response) : list net_result :=
  [Answer (body 200 sample_leagues); Answer r].

(** A process that has just started, and one whose logging is set up. *)
Definition fresh_process : state :=
  {| fs := ∅; log_level := WARNING; log_configured := false; trace := [] |}.

Definition polling : state :=
  {| fs := ∅; log_level := INFO; log_configured := true; trace := [] |}.

Definition sample_args : args :=
  {| character_name := "Hero"; gamemode := "standard"; doth := false;
     update := 60000; output := "poe2_rank.txt"; debug := false;
     client_id := Some "id"; client_secret := Some "secret" |}.

(** A listing whose league has an id that is not its name. *)
Definition coded_leagues : pyval :=
  PDict [("leagues",
          PList [PDict [("id", PStr "Hardcore"); ("name", PStr "Hardcore")];
                 PDict [("id", PStr "PL 4711"); ("name", PStr "Standard")];
                 PDict [("id", PStr "PL 4712"); ("name", PStr "Standard")]])].

(** A process that logs at the debug level, and one that has files from an
    earlier run. *)
Definition debugging : state :=
  {| fs := ∅; log_level := DEBUG; log_configured := true; trace := [] |}.

Definition resumed : state :=
  {| fs := <["notes.txt" := "keep"]>
             {["poe2_rank.txt" := "Level: 92 | Rank: 5 | Standard"]};
     log_level := INFO; log_configured := true; trace := [] |}.

(** Arguments without credentials, with an interval that no float holds,
    and with a negative interval. *)
Definition anonymous_args : args :=
  {| character_name := "Hero"; gamemode := "standard"; doth := false;
     update := 60000; output := "poe2_rank.txt"; debug := false;
     client_id := None; client_secret := Some "secret" |}.

Definition eternal_args : args :=
  {| character_name := "Hero"; gamemode := "standard"; doth := false;
     update := 10 ^ 400; output := "poe2_rank.txt"; debug := false;
     client_id := Some "id"; client_secret := Some "secret" |}.

Definition hasty_args : args :=
  {| character_name := "Hero"; gamemode := "hc"; doth := true;
     update := -1; output := "rank.txt"; debug := false;
     client_id := Some "id"; client_secret := Some "secret" |}.

(** ** Proof support

    The state transformers stay folded in the goals, and [run] takes a
    computation of the monad as far as the goal determines it. *)

#[local] Arguments push : simpl never.
#[local] Arguments logged : simpl never.
#[local] Arguments stored : simpl never.
#[local] Arguments configured : simpl never.
#[local] Arguments nreq : simpl never.
#[local] Arguments nopen : simpl never.
#[local] Arguments entry_search : simpl never.

Ltac run :=
  unfold bind, ret, lift, raise, when, log, emit, effective_level,
    traceback_print_exc, try_except; cbn.

(** * Properties *)

(** ** The state transformers *)

Lemma nreq_push e s :
  nreq (push e s) = if is_request e then S (nreq s) else nreq s.
Proof. unfold nreq, count_events, push. simpl. now destruct (is_request e). Qed.

Lemma nopen_push e s :
  nopen (push e s) = if is_open e then S (nopen s) else nopen s.
Proof. unfold nopen, count_events, push. simpl. now destruct (is_open e). Qed.

Lemma nreq_logged lvl m s : nreq (logged lvl m s) = nreq s.
Proof. unfold logged. destruct (log_level s <=? lvl); [apply nreq_push | easy]. Qed.

Lemma nopen_logged lvl m s : nopen (logged lvl m s) = nopen s.
Proof. unfold logged. destruct (log_level s <=? lvl); [apply nopen_push | easy]. Qed.

Lemma fs_logged lvl m s : fs (logged lvl m s) = fs s.
Proof. unfold logged. now destruct (log_level s <=? lvl). Qed.

Lemma log_level_logged lvl m s : log_level (logged lvl m s) = log_level s.
Proof. unfold logged. now destruct (log_level s <=? lvl). Qed.

Lemma log_level_push e s : log_level (push e s) = log_level s.
Proof. reflexivity. Qed.

Lemma requests_logged lvl m s : requests (logged lvl m s) = requests s.
Proof. unfold logged. now destruct (log_level s <=? lvl). Qed.

Lemma nreq_stored path content s : nreq (stored path content s) = nreq s.
Proof. reflexivity. Qed.

Lemma nopen_stored path content s : nopen (stored path content s) = nopen s.
Proof. reflexivity. Qed.

(** ** The bracket resolver *)

(** C5: each of the four modes, with and without the seasonal variant, has
    its fixed league name. *)
Theorem get_league_name_table :
  get_league_name "standard" true = "Dawn of the Hunt"
  /\ get_league_name "hc" true = "HC Dawn of the Hunt"
  /\ get_league_name "ssf" true = "SSF Dawn of the Hunt"
  /\ get_league_name "hcssf" true = "HC SSF Dawn of the Hunt"
  /\ get_league_name "standard" false = "Standard"
  /\ get_league_name "hc" false = "Hardcore"
  /\ get_league_name "ssf" false = "Solo Self-Found"
  /\ get_league_name "hcssf" false = "Hardcore SSF".
Proof. repeat split. Qed.

(** C10: on a mode that is none of the four, with or without the variant,
    the resolver returns ["Unknown"]; it is a total function, so it never
    raises. *)
Theorem get_league_name_unknown gamemode use_doth :
  gamemode <> "standard" -> gamemode <> "hc" ->
  gamemode <> "ssf" -> gamemode <> "hcssf" ->
  get_league_name gamemode use_doth = "Unknown".
Proof.
  intros Hstandard Hhc Hssf Hhcssf. unfold get_league_name.
  apply String.eqb_neq in Hstandard, Hhc, Hssf, Hhcssf.
  rewrite Hstandard, Hhc, Hssf, Hhcssf.
  now destruct use_doth.
Qed.

(** ** The token acquirer *)

Lemma missing_not_truthy o : missing o -> truthy (of_option o) = false.
Proof. now intros [-> | ->]. Qed.

(** C6: when the client id or the client secret is absent or empty,
    [get_oauth_token] returns [None] at once: it logs one error, and sends
    no request. *)
Theorem get_oauth_token_missing_credentials client_id client_secret s :
  missing client_id \/ missing client_secret ->
  get_oauth_token client_id client_secret s
    = (Val PNone, logged ERROR MsgCredentialsRequired s)
  /\ requests (logged ERROR MsgCredentialsRequired s) = requests s.
Proof.
  intros Hmissing. split; [ | apply requests_logged ].
  unfold get_oauth_token.
  destruct Hmissing as [H | H]; apply missing_not_truthy in H; rewrite H.
  - reflexivity.
  - now rewrite orb_true_r.
Qed.

(** ** The output writer *)

Lemma fs_push e s : fs (push e s) = fs s.
Proof. reflexivity. Qed.

Lemma fs_stored path content s :
  fs (stored path content s) = <[path := content]> (fs s).
Proof. reflexivity. Qed.

Lemma write_output_found output_file character_data ladder_name s :
  io_ok (nopen s) = true ->
  write_output output_file (Some character_data) ladder_name s
    = (Val tt,
       logged INFO (MsgUpdated (format_content character_data ladder_name))
         (push (EvOpen output_file)
            (stored output_file (format_content character_data ladder_name)
               s))).
Proof.
  intros Hio. unfold write_output, write_file. run. now rewrite Hio.
Qed.

Lemma write_output_none output_file ladder_name s :
  io_ok (nopen s) = true ->
  write_output output_file None ladder_name s
    = (Val tt,
       logged INFO MsgWroteEmpty
         (push (EvOpen output_file) (stored output_file "" s))).
Proof.
  intros Hio. unfold write_output, write_file. run. now rewrite Hio.
Qed.

Lemma written_file output_file content lvl m s :
  fs (logged lvl m (push (EvOpen output_file)
                      (stored output_file content s))) !! output_file
    = Some content.
Proof.
  rewrite fs_logged, fs_push, fs_stored. apply lookup_insert_eq.
Qed.

(** C3: for a found entry, when the file can be opened, the writer leaves
    in it exactly [Level: L | Rank: R | NAME] when the entry has no status
    and [Level: L | Rank: [STATUS] R | NAME] when it has one.  Level 92 and
    rank 5 in "Standard" give [Level: 92 | Rank: 5 | Standard], and with
    status DEAD [Level: 92 | Rank: [DEAD] 5 | Standard]. *)
Theorem write_output_format :
  (forall output_file character_data ladder_name s,
      io_ok (nopen s) = true ->
      status character_data <> Some "" ->
      fs (snd (write_output output_file (Some character_data) ladder_name s))
        !! output_file
      = Some
          match status character_data with
          | None =>
              "Level: " ++ py_str (level character_data) ++ " | Rank: "
                ++ py_str (rank character_data) ++ " | " ++ ladder_name
          | Some st =>
              "Level: " ++ py_str (level character_data) ++ " | Rank: ["
                ++ st ++ "] " ++ py_str (rank character_data) ++ " | "
                ++ ladder_name
          end)
  /\ (forall output_file s,
        io_ok (nopen s) = true ->
        fs (snd (write_output output_file
                   (Some {| level := PInt 92; rank := PInt 5;
                            status := None |}) "Standard" s))
          !! output_file
        = Some "Level: 92 | Rank: 5 | Standard")
  /\ (forall output_file s,
        io_ok (nopen s) = true ->
        fs (snd (write_output output_file
                   (Some {| level := PInt 92; rank := PInt 5;
                            status := Some "DEAD" |}) "Standard" s))
          !! output_file
        = Some "Level: 92 | Rank: [DEAD] 5 | Standard").
Proof.
  split; [ | split ].
  - intros output_file character_data ladder_name s Hio Hstatus.
    rewrite write_output_found by assumption. cbn [snd].
    rewrite written_file. f_equal. unfold format_content, status_truthy.
    destruct (status character_data) as [st | ]; [ | reflexivity ].
    destruct st as [ | c st ]; [ congruence | reflexivity ].
  - intros output_file s Hio.
    rewrite write_output_found by assumption. apply written_file.
  - intros output_file s Hio.
    rewrite write_output_found by assumption. apply written_file.
Qed.

(** ** The entry search *)

Lemma entry_passed_inv character_name entry :
  entry_passed character_name entry = true ->
  exists e c n,
    entry = PDict e
    /\ get_default e "character" (PDict []) = PDict c
    /\ get_default c "name" (PStr "") = n
    /\ eq_str n character_name = false.
Proof.
  unfold entry_passed, entry_name, dict_get.
  destruct entry as [ | | | | | | e ]; try discriminate.
  destruct (get_default e "character" (PDict [])) as [ | | | | | | c ] eqn:Hc;
    try discriminate.
  intros H. exists e, c, (get_default c "name" (PStr "")).
  repeat split; try assumption. now apply negb_true_iff.
Qed.

Lemma search_entries_passed character_name entry rest s :
  entry_passed character_name entry = true ->
  search_entries character_name (entry :: rest) s
    = search_entries character_name rest s.
Proof.
  intros H. apply entry_passed_inv in H as (e & c & n & -> & Hc & Hn & Hneq).
  cbn [search_entries]. run. rewrite Hc. cbn. rewrite Hn, Hneq. reflexivity.
Qed.

(** The scan stops at the first entry in listing order that carries the
    tracked name, and returns what it derives from that entry. *)
Lemma search_entries_first_match character_name passed e c rest s :
  forallb (entry_passed character_name) passed = true ->
  get_default e "character" (PDict []) = PDict c ->
  get_default c "name" (PStr "") = PStr character_name ->
  fst (search_entries character_name (passed ++ PDict e :: rest) s)
    = Val (Some
        {| level := get_default c "level" (PStr "Unknown");
           rank := get_default e "rank" (PStr "Unknown");
           status :=
             if truthy (get_default c "dead" (PBool false)) then Some "DEAD"
             else if truthy (get_default c "retired" (PBool false))
                  then Some "RETIRED"
                  else None |}).
Proof.
  intros Hpassed Hc Hname.
  induction passed as [ | entry passed IH ]; cbn [app].
  - cbn [search_entries]. run. rewrite Hc. cbn. rewrite Hname. cbn.
    rewrite String.eqb_refl.
    destruct (truthy (get_default c "dead" (PBool false))); cbn;
      [ reflexivity | ].
    now destruct (truthy (get_default c "retired" (PBool false))).
  - cbn [forallb] in Hpassed. apply andb_true_iff in Hpassed as [Hentry Hrest].
    rewrite search_entries_passed by assumption. now apply IH.
Qed.

(** ** The bracket lookup *)

Lemma find_league_exception league_name leagues e :
  find_league league_name leagues = Exc e -> is_Exception e = true.
Proof.
  induction leagues as [ | league rest IH ]; cbn; [ discriminate | ].
  destruct league; cbn; try (now intros [= <-]).
  destruct (eq_str _ _); [ discriminate | exact IH ].
Qed.

Lemma listed_id_exception league_name r e :
  listed_id league_name r = Exc e -> is_Exception e = true.
Proof.
  unfold listed_id, response_json.
  destruct (json_body r) as [leagues_data | ]; [ | now intros [= <-] ].
  destruct leagues_data; cbn; try (now intros [= <-]).
  destruct (get_default d "leagues" (PList [])); cbn;
    try (now intros [= <-]); apply find_league_exception.
Qed.

(** What the body of the inner [try] comes to, by the answer to its
    request. *)
Lemma fetch_league_id_fst league_name leagues_url hdrs s :
  fst (fetch_league_id league_name leagues_url hdrs s)
    = match net (nreq s) with
      | NetworkFault => Exc RequestException
      | Answer r =>
          if status_code r =? 200 then
            match listed_id league_name r with
            | Val league_id =>
                if truthy league_id then Val (Continue league_id)
                else Val (Return None)
            | Exc e => Exc e
            end
          else Val (Return None)
      end.
Proof.
  unfold fetch_league_id, send, listed_id. run.
  destruct (net (nreq s)) as [r | ]; [ | reflexivity ].
  destruct (status_code r =? 200); cbn; [ | reflexivity ].
  destruct (response_json r) as [leagues_data | e]; [ cbn | reflexivity ].
  destruct (dict_get leagues_data "leagues" (PList [])) as [leagues_list | e];
    [ cbn | reflexivity ].
  destruct (py_iter leagues_list) as [leagues | e]; [ cbn | reflexivity ].
  destruct (find_league league_name leagues) as [league_id | e];
    [ cbn | reflexivity ].
  now destruct (truthy league_id).
Qed.

Lemma try_except_fst {A} (c : M A) caught h s :
  fst (try_except c caught h s)
    = match fst (c s) with
      | Exc e => if caught e then fst (h e (snd (c s))) else Exc e
      | Val a => Val a
      end.
Proof.
  unfold try_except. destruct (c s) as [[a | e] s']; cbn; [ reflexivity | ].
  now destruct (caught e).
Qed.

(** What the lookup comes to, by the answer to its request. *)
Lemma bracket_lookup_fst league_name leagues_url hdrs s outcome :
  listing_case league_name (net (nreq s)) outcome ->
  fst (bracket_lookup league_name leagues_url hdrs s) = Val outcome.
Proof.
  intros Hcase. unfold bracket_lookup.
  rewrite try_except_fst, fetch_league_id_fst.
  remember (net (nreq s)) as answer eqn:Hnet.
  destruct Hcase as [ | r e Hstatus Hid | r league_id Hstatus Hid Htruthy
                    | r Hstatus | r league_id Hstatus Hid Htruthy ].
  - reflexivity.
  - rewrite Hstatus, Hid. cbn.
    now rewrite (listed_id_exception _ _ _ Hid).
  - now rewrite Hstatus, Hid, Htruthy.
  - apply Z.eqb_neq in Hstatus. now rewrite Hstatus.
  - now rewrite Hstatus, Hid, Htruthy.
Qed.

Lemma bracket_lookup_outcome league_name leagues_url hdrs s :
  fst (bracket_lookup league_name leagues_url hdrs s) = Val (Return None)
  \/ exists league_id,
      fst (bracket_lookup league_name leagues_url hdrs s)
        = Val (Continue league_id).
Proof.
  unfold bracket_lookup. rewrite try_except_fst, fetch_league_id_fst.
  destruct (net (nreq s)) as [r | ]; [ | right; now eexists ].
  destruct (status_code r =? 200); [ | now left ].
  destruct (listed_id league_name r) as [league_id | e] eqn:Hid.
  - destruct (truthy league_id); [ right; now eexists | now left ].
  - rewrite (listed_id_exception _ _ _ Hid). right. now eexists.
Qed.

(** The lookup sends one request, opens no file and leaves the logger's
    level alone. *)
Lemma bracket_lookup_snd league_name leagues_url hdrs s :
  let s' := snd (bracket_lookup league_name leagues_url hdrs s) in
  nreq s' = S (nreq s) /\ nopen s' = nopen s
  /\ log_level s' = log_level s.
Proof.
  unfold bracket_lookup, fetch_league_id, send. run.
  assert (Hpush : forall rq : request,
             nreq (push (EvRequest rq) s) = S (nreq s)
             /\ nopen (push (EvRequest rq) s) = nopen s
             /\ log_level (push (EvRequest rq) s) = log_level s).
  { intros rq. now rewrite nreq_push, nopen_push. }
  assert (Hlogged : forall lvl m (rq : request),
             nreq (logged lvl m (push (EvRequest rq) s)) = S (nreq s)
             /\ nopen (logged lvl m (push (EvRequest rq) s)) = nopen s
             /\ log_level (logged lvl m (push (EvRequest rq) s))
                = log_level s).
  { intros lvl m rq. rewrite nreq_logged, nopen_logged, log_level_logged.
    apply Hpush. }
  destruct (net (nreq s)) as [r | ]; cbn; [ | apply Hlogged ].
  destruct (status_code r =? 200); cbn;
    [ | rewrite nreq_logged, nopen_logged, log_level_logged;
        apply Hlogged ].
  destruct (response_json r) as [leagues_data | e]; cbn;
    [ | destruct (is_Exception e); cbn; [ apply Hlogged | apply Hpush ] ].
  destruct (dict_get leagues_data "leagues" (PList [])) as [leagues_list | e];
    cbn;
    [ | destruct (is_Exception e); cbn; [ apply Hlogged | apply Hpush ] ].
  destruct (py_iter leagues_list) as [leagues | e]; cbn;
    [ | destruct (is_Exception e); cbn; [ apply Hlogged | apply Hpush ] ].
  destruct (find_league league_name leagues) as [league_id | e]; cbn;
    [ | destruct (is_Exception e); cbn; [ apply Hlogged | apply Hpush ] ].
  destruct (truthy league_id); cbn; [ apply Hpush | apply Hlogged ].
Qed.

(** ** Cycles without a result *)

Lemma no_result_none : no_result (Val None).
Proof. now left. Qed.

Lemma no_result_exc e : is_Exception e = true -> no_result (Exc e).
Proof. intros H. right. now exists e. Qed.

#[local] Hint Resolve no_result_none no_result_exc : core.

Lemma search_entries_unnamed character_name items s :
  forallb (fun entry => negb (entry_named character_name entry)) items = true ->
  no_result (fst (search_entries character_name items s)).
Proof.
  induction items as [ | entry rest IH ]; intros Hitems.
  - cbn. auto.
  - cbn [forallb] in Hitems. apply andb_true_iff in Hitems as [Hentry Hrest].
    apply negb_true_iff in Hentry. unfold entry_named, entry_name in Hentry.
    cbn [search_entries]. run.
    destruct (dict_get entry "character" (PDict [])) as [character | e] eqn:Hc;
      cbn.
    + destruct (dict_get character "name" (PStr "")) as [n | e] eqn:Hn; cbn.
      * rewrite Hentry. now apply IH.
      * destruct character; cbn in Hn; try discriminate;
          injection Hn as <-; auto.
    + destruct entry; cbn in Hc; try discriminate; injection Hc as <-; auto.
Qed.

(** A [try] with [except ValueError] around a block without a result has
    none either, when its handler returns [None]. *)
Lemma no_result_except_ValueError (c : M (option character_data)) m s :
  no_result (fst (c s)) ->
  no_result
    (fst (try_except c is_ValueError
            (fun e => log ERROR (m e) ;; ret None) s)).
Proof.
  intros Hc. rewrite try_except_fst.
  destruct (fst (c s)) as [o | e]; [ exact Hc | ].
  destruct (is_ValueError e); [ run; auto | exact Hc ].
Qed.

Lemma search_ladder_no_result character_name r s :
  status_code r = 200 -> ladder_failure character_name r ->
  no_result (fst (search_ladder character_name r s)).
Proof.
  intros Hstatus Hfail. unfold search_ladder.
  apply no_result_except_ValueError. unfold write_file. run.
  destruct Hfail as [ H | H | H | Hjson | entries Hentries Hempty
                    | entries items Hentries Hiter Hitems ];
    try (rewrite Hstatus in H; discriminate); try contradiction.
  - unfold response_json. rewrite Hjson. cbn. auto.
  - unfold ladder_entries in Hentries.
    destruct (response_json r) as [ladder_data | e]; [ cbn | discriminate ].
    destruct (log_level s =? DEBUG); cbn;
      [ destruct (io_ok (nopen s)); cbn; [ | auto ] | ];
      (destruct (dict_get ladder_data "ladder" (PDict [])) as [ladder_obj | e];
       [ cbn | discriminate ]);
      rewrite Hentries; cbn; rewrite Hempty; cbn; auto.
  - unfold ladder_entries in Hentries.
    destruct (response_json r) as [ladder_data | e]; [ cbn | discriminate ].
    destruct (log_level s =? DEBUG); cbn;
      [ destruct (io_ok (nopen s)); cbn; [ | auto ] | ];
      (destruct (dict_get ladder_data "ladder" (PDict [])) as [ladder_obj | e];
       [ cbn | discriminate ]);
      rewrite Hentries; cbn;
      (destruct (truthy entries); cbn; [ | auto ]);
      rewrite Hiter; cbn; now apply search_entries_unnamed.
Qed.

Lemma entry_search_no_result league_name character_name hdrs league_id s r :
  net (nreq s) = Answer r -> ladder_failure character_name r ->
  no_result (fst (entry_search league_name character_name hdrs league_id s)).
Proof.
  intros Hnet Hfail. unfold entry_search, quote, send.
  destruct league_id as [ | | | | encoded | | ]; run; auto.
  rewrite nreq_logged, Hnet. cbn.
  destruct (header_get "X-Rate-Limit-Client-State" (headers r)); cbn;
    (destruct (status_code r =? 429); cbn; [ auto | ]);
    (destruct (status_code r =? 200) eqn:Hstatus; cbn;
     [ | now destruct (status_code r =? 404); cbn; auto ]);
    apply Z.eqb_eq in Hstatus; now apply search_ladder_no_result.
Qed.

(** The [except Exception] of line 252 turns a block without a result
    into [None]. *)
Lemma no_result_except_Exception (c : M (option character_data)) s :
  no_result (fst (c s)) ->
  fst (try_except c is_Exception
         (fun e =>
            log ERROR (MsgApiError e) ;;
            lvl <- effective_level ;;
            when (lvl =? DEBUG) traceback_print_exc ;;
            ret None) s) = Val None.
Proof.
  intros [Hc | (e & Hc & He)]; rewrite try_except_fst, Hc;
    [ reflexivity | ].
  rewrite He. run. now destruct (log_level _ =? DEBUG).
Qed.

(** When the answer to the second request of a call, the one for the
    ladder, holds no result, the call returns [None]. *)
Lemma get_character_rank_none league_name character_name access_token s r :
  net (S (nreq s)) = Answer r -> ladder_failure character_name r ->
  fst (get_character_rank league_name character_name access_token s)
    = Val None.
Proof.
  intros Hnet Hfail. unfold get_character_rank.
  unfold bind at 1. unfold log at 1. cbn.
  destruct (truthy access_token); cbn; [ | reflexivity ].
  apply no_result_except_Exception.
  unfold bind at 1. unfold log at 1. cbn. unfold bind at 1.
  set (s0 := logged DEBUG _ (logged INFO _ s)).
  assert (Hs0 : nreq s0 = nreq s) by (unfold s0; now rewrite !nreq_logged).
  pose proof (bracket_lookup_snd league_name leagues_url
                (api_headers access_token) s0)
    as (Hnreq & _ & _).
  pose proof (bracket_lookup_outcome league_name leagues_url
                (api_headers access_token) s0)
    as Hout.
  destruct (bracket_lookup _ _ _ s0) as [looked_up s1]. cbn in Hnreq, Hout.
  destruct Hout as [-> | (league_id & ->)]; [ cbn; auto | ].
  apply entry_search_no_result with (r := r); [ | assumption ].
  now rewrite Hnreq, Hs0.
Qed.

(** A call whose ladder request is answered with 429 opens no file. *)
Lemma get_character_rank_429_nopen league_name character_name access_token
    s r :
  net (S (nreq s)) = Answer r -> status_code r = 429 ->
  nopen (snd (get_character_rank league_name character_name access_token s))
    = nopen s.
Proof.
  intros Hnet Hstatus. unfold get_character_rank. run.
  destruct (truthy access_token); cbn; [ | now rewrite !nopen_logged ].
  set (s0 := logged DEBUG _ (logged INFO _ s)).
  assert (Hs0 : nreq s0 = nreq s /\ nopen s0 = nopen s).
  { unfold s0. now rewrite !nreq_logged, !nopen_logged. }
  destruct Hs0 as [Hs0 Hs0'].
  pose proof (bracket_lookup_snd league_name leagues_url
                (api_headers access_token) s0)
    as (Hnreq & Hnopen & _).
  pose proof (bracket_lookup_outcome league_name leagues_url
                (api_headers access_token) s0)
    as Hout.
  destruct (bracket_lookup _ _ _ s0) as [looked_up s1]. cbn in Hnreq, Hnopen, Hout.
  rewrite Hs0 in Hnreq. rewrite Hs0' in Hnopen.
  destruct Hout as [-> | (league_id & ->)]; cbn; [ assumption | ].
  unfold entry_search, quote, send.
  destruct league_id as [ | | | | encoded | | ]; run;
    try (destruct (log_level _ =? DEBUG); cbn;
         now rewrite ?nopen_push, ?nopen_logged).
  rewrite nreq_logged, Hnreq, Hnet. cbn.
  destruct (header_get "X-Rate-Limit-Client-State" (headers r)); cbn;
    rewrite Hstatus; cbn; now rewrite ?nopen_logged, ?nopen_push, ?nopen_logged.
Qed.

(** The search without a result, then the writer: the file is left empty. *)
Lemma fruitless_then_write league_name character_name access_token
    output_file s r :
  net (S (nreq s)) = Answer r -> ladder_failure character_name r ->
  io_ok (nopen (snd (get_character_rank league_name character_name
                       access_token s))) = true ->
  (character_data <- get_character_rank league_name character_name
                       access_token ;;
   write_output output_file character_data league_name) s
    = (Val tt,
       logged INFO MsgWroteEmpty
         (push (EvOpen output_file)
            (stored output_file ""
               (snd (get_character_rank league_name character_name
                       access_token s))))).
Proof.
  intros Hnet Hfail Hio.
  pose proof (get_character_rank_none league_name character_name
                access_token s r Hnet Hfail) as Hnone.
  unfold bind.
  destruct (get_character_rank league_name character_name access_token s)
    as [found s1].
  cbn in Hnone, Hio |- *. subst found. now apply write_output_none.
Qed.

(** C4: when the ladder answers 200 and its entry list is empty, or no
    entry carries the tracked name, the search returns [None], and the
    writer, when it can open the output file, leaves it empty.  The
    answer of the ladder is the one to the second request of the call,
    [net (S (nreq s))]: the first request asks for the listing. *)
Theorem not_found_empties_file league_name character_name access_token
    output_file s r entries :
  net (S (nreq s)) = Answer r ->
  status_code r = 200 ->
  ladder_entries r = Val entries ->
  truthy entries = false
  \/ (exists items,
        py_iter entries = Val items
        /\ forallb (fun entry => negb (entry_named character_name entry))
             items = true) ->
  io_ok (nopen (snd (get_character_rank league_name character_name
                       access_token s))) = true ->
  fst (get_character_rank league_name character_name access_token s)
    = Val None
  /\ exists s',
      (character_data <- get_character_rank league_name character_name
                           access_token ;;
       write_output output_file character_data league_name) s = (Val tt, s')
      /\ fs s' !! output_file = Some "".
Proof.
  intros Hnet Hstatus Hentries Hnone Hio.
  assert (Hfail : ladder_failure character_name r).
  { destruct Hnone as [Hempty | (items & Hiter & Hitems)].
    - now apply EmptyListing with entries.
    - now apply NoMatch with entries items. }
  split; [ now apply get_character_rank_none with r | ].
  eexists. split; [ now apply fruitless_then_write with r | ].
  apply written_file.
Qed.

(** C8: rate limiting, an unknown bracket, any other status than 200, a
    body that is not JSON, an empty entry list and a list without the
    tracked name, each as the answer [net (S (nreq s))] to the ladder
    request of the call, all make the search return the one value [None];
    the writer is then called with [None] in each case, and leaves the
    output file empty when it can open it. *)
Theorem rank_failures_alike league_name character_name access_token
    output_file s r :
  net (S (nreq s)) = Answer r ->
  ladder_failure character_name r ->
  io_ok (nopen (snd (get_character_rank league_name character_name
                       access_token s))) = true ->
  fst (get_character_rank league_name character_name access_token s)
    = Val None
  /\ (character_data <- get_character_rank league_name character_name
                          access_token ;;
      write_output output_file character_data league_name) s
     = write_output output_file None league_name
         (snd (get_character_rank league_name character_name
                 access_token s))
  /\ fs (snd (write_output output_file None league_name
                (snd (get_character_rank league_name character_name
                        access_token s))))
     = <[output_file := ""]>
         (fs (snd (get_character_rank league_name character_name
                     access_token s))).
Proof.
  intros Hnet Hfail Hio.
  split; [ now apply get_character_rank_none with r | ].
  rewrite (fruitless_then_write _ _ _ _ _ _ Hnet Hfail Hio).
  rewrite write_output_none by assumption.
  split; [ reflexivity | ].
  cbn [snd]. now rewrite fs_logged, fs_push, fs_stored.
Qed.

(** ** A found entry *)

Lemma search_ladder_found character_name r s passed e c rest :
  ladder_entries r = Val (PList (passed ++ PDict e :: rest)) ->
  forallb (entry_passed character_name) passed = true ->
  get_default e "character" (PDict []) = PDict c ->
  get_default c "name" (PStr "") = PStr character_name ->
  (log_level s = DEBUG -> io_ok (nopen s) = true) ->
  fst (search_ladder character_name r s)
    = fst (search_entries character_name (passed ++ PDict e :: rest) s).
Proof.
  intros Hentries Hpassed Hc Hname Hdump.
  rewrite (search_entries_first_match _ _ _ _ _ _ Hpassed Hc Hname).
  unfold search_ladder. rewrite try_except_fst.
  unfold ladder_entries in Hentries. unfold write_file. run.
  destruct (response_json r) as [ladder_data | x]; [ cbn | discriminate ].
  destruct (dict_get ladder_data "ladder" (PDict [])) as [ladder_obj | x];
    [ | discriminate ].
  assert (Htruthy : truthy (PList (passed ++ PDict e :: rest)) = true)
    by now destruct passed.
  destruct (log_level s =? DEBUG) eqn:Hlevel; cbn.
  - apply Z.eqb_eq in Hlevel. rewrite (Hdump Hlevel). cbn.
    rewrite Hentries. cbn - [truthy]. rewrite Htruthy. cbn.
    now rewrite (search_entries_first_match _ _ _ _ _ _ Hpassed Hc Hname).
  - rewrite Hentries. cbn - [truthy]. rewrite Htruthy. cbn.
    now rewrite (search_entries_first_match _ _ _ _ _ _ Hpassed Hc Hname).
Qed.

(** C2: on a 200 answer whose entries hold one with the tracked name, the
    entry search returns the result derived from the first such entry in
    listing order: the level of its character (["Unknown"] when it has
    none), its rank (["Unknown"] when it has none), and the status DEAD
    when its dead flag holds, else RETIRED when its retired flag holds,
    else none.  In debug mode the dump of the ladder must succeed. *)
Theorem entry_search_match league_name character_name hdrs league_id s r
    passed e c rest :
  net (nreq s) = Answer r ->
  status_code r = 200 ->
  ladder_entries r = Val (PList (passed ++ PDict e :: rest)) ->
  forallb (entry_passed character_name) passed = true ->
  get_default e "character" (PDict []) = PDict c ->
  get_default c "name" (PStr "") = PStr character_name ->
  (log_level s = DEBUG -> io_ok (nopen s) = true) ->
  fst (entry_search league_name character_name hdrs (PStr league_id) s)
    = Val (Some
        {| level := get_default c "level" (PStr "Unknown");
           rank := get_default e "rank" (PStr "Unknown");
           status :=
             if truthy (get_default c "dead" (PBool false)) then Some "DEAD"
             else if truthy (get_default c "retired" (PBool false))
                  then Some "RETIRED"
                  else None |}).
Proof.
  intros Hnet Hstatus Hentries Hpassed Hc Hname Hdump.
  rewrite <- (search_entries_first_match character_name passed e c rest s
                Hpassed Hc Hname).
  unfold entry_search, quote, send. run.
  rewrite nreq_logged, Hnet. cbn.
  destruct (header_get "X-Rate-Limit-Client-State" (headers r)); cbn;
    rewrite Hstatus; cbn;
    (rewrite (search_ladder_found _ _ _ _ _ _ _ Hentries Hpassed Hc Hname);
     [ now rewrite !(search_entries_first_match _ _ _ _ _ _ Hpassed Hc Hname)
     | rewrite ?log_level_logged, ?nopen_logged, log_level_push, nopen_push;
       cbn; now rewrite log_level_logged, nopen_logged ]).
Qed.

(** ** The requests of a call *)

Lemma requests_push e s :
  requests (push e s) = if is_request e then e :: requests s else requests s.
Proof. unfold requests, push. cbn. now destruct (is_request e). Qed.

Lemma sends_ret {A} (a : A) : sends [] (ret a).
Proof. intros s. reflexivity. Qed.

Lemma sends_lift {A} (r : res A) : sends [] (lift r).
Proof. intros s. reflexivity. Qed.

Lemma sends_log lvl m : sends [] (log lvl m).
Proof. intros s. apply requests_logged. Qed.

Lemma sends_effective_level : sends [] effective_level.
Proof. intros s. reflexivity. Qed.

Lemma sends_traceback : sends [] traceback_print_exc.
Proof. intros s. reflexivity. Qed.

Lemma sends_write_file path content : sends [] (write_file path content).
Proof. intros s. unfold write_file. now destruct (io_ok (nopen s)). Qed.

Lemma sends_send rq : sends [EvRequest rq] (send rq).
Proof. intros s. unfold send. now destruct (net (nreq s)). Qed.

(** What follows a computation adds no request when it sends none. *)
Lemma sends_bind {A B} sent (c : M A) (k : A -> M B) :
  sends sent c -> (forall a, sends [] (k a)) -> sends sent (bind c k).
Proof.
  intros Hc Hk s. unfold bind. specialize (Hc s).
  destruct (c s) as [[a | e] s']; cbn in Hc |- *; [ | exact Hc ].
  now rewrite Hk.
Qed.

Lemma sends_try_except {A} sent (c : M A) caught h :
  sends sent c -> (forall e, sends [] (h e)) ->
  sends sent (try_except c caught h).
Proof.
  intros Hc Hh s. unfold try_except. specialize (Hc s).
  destruct (c s) as [[a | e] s']; cbn in Hc |- *; [ exact Hc | ].
  destruct (caught e); [ | exact Hc ]. now rewrite Hh.
Qed.

Lemma sends_when b c : sends [] c -> sends [] (when b c).
Proof. intros Hc. destruct b; [ exact Hc | apply sends_ret ]. Qed.

Create HintDb sends.

#[local] Hint Resolve sends_ret sends_lift sends_log sends_effective_level
  sends_traceback sends_write_file sends_send sends_when : sends.

(** Takes a goal [sends sent c] apart along the binds and branches of c. *)
Ltac sends :=
  repeat first
    [ solve [ auto with sends ]
    | apply sends_when
    | apply sends_bind; [ | intro ]
    | apply sends_try_except; [ | intro ]
    | match goal with
      | |- sends _ (if ?b then _ else _) => destruct b
      | |- sends _ (match ?x with _ => _ end) => destruct x
      end ].

Lemma search_entries_silent character_name entries :
  sends [] (search_entries character_name entries).
Proof.
  induction entries as [ | entry rest IH ]; cbn [search_entries]; sends.
Qed.

#[local] Hint Resolve search_entries_silent : sends.

Lemma search_ladder_silent character_name r :
  sends [] (search_ladder character_name r).
Proof. unfold search_ladder. sends. Qed.

#[local] Hint Resolve search_ladder_silent : sends.

Lemma bracket_lookup_sends league_name leagues_url hdrs :
  sends [EvRequest (GET leagues_url hdrs)]
    (bracket_lookup league_name leagues_url hdrs).
Proof. unfold bracket_lookup, fetch_league_id. sends. Qed.

(** With an id that is a [str], the entry search sends the request for the
    ladder of the percent-encoded id, and no other. *)
Lemma entry_search_sends league_name character_name hdrs league_id :
  sends [EvRequest (GET (ladder_url (quote_str league_id)) hdrs)]
    (entry_search league_name character_name hdrs (PStr league_id)).
Proof.
  intros s. unfold entry_search. cbn [quote].
  unfold bind at 1. cbn [lift]. unfold bind at 1, log at 1.
  match goal with
  | |- requests (snd (bind (send ?rq) ?k ?s')) = _ =>
      assert (Hsends : sends [EvRequest rq] (bind (send rq) k))
  end.
  { sends. }
  rewrite Hsends. now rewrite requests_logged.
Qed.

(** C1, as the code has it.  The lookup takes the display name itself for
    the id when the request for the listing raises, or its body is not
    JSON or not of the expected shape: the call then goes on to the entry
    search, and asks for the ladder under the percent-encoded name.  When
    the listing answers with another status than 200, or holds no entry of
    that name with an id, the lookup makes the call return [None], and the
    request for the listing is the only one the call has sent. *)
Theorem bracket_lookup_fallback league_name character_name access_token s
    outcome :
  listing_case league_name (net (nreq s)) outcome ->
  truthy access_token = true ->
  (forall leagues_url hdrs,
      fst (bracket_lookup league_name leagues_url hdrs s) = Val outcome)
  /\ match outcome with
     | Return result =>
         fst (get_character_rank league_name character_name access_token s)
           = Val result
         /\ requests (snd (get_character_rank league_name character_name
                             access_token s))
            = EvRequest (GET leagues_url (api_headers access_token))
                :: requests s
     | Continue league_id =>
         forall encoded_league,
           quote league_id = Val encoded_league ->
           requests (snd (get_character_rank league_name character_name
                            access_token s))
           = EvRequest (GET (ladder_url encoded_league)
                          (api_headers access_token))
               :: EvRequest (GET leagues_url (api_headers access_token))
               :: requests s
     end.
Proof.
  intros Hcase Htoken.
  split; [ intros leagues_url hdrs; now apply bracket_lookup_fst | ].
  unfold get_character_rank. run. rewrite Htoken. cbn.
  set (s0 := logged DEBUG _ (logged INFO _ s)).
  assert (Hs0 : nreq s0 = nreq s /\ requests s0 = requests s).
  { unfold s0. now rewrite !nreq_logged, !requests_logged. }
  destruct Hs0 as [Hnreq Hrequests]. rewrite <- Hnreq in Hcase.
  pose proof (bracket_lookup_fst league_name leagues_url
                (api_headers access_token) s0 outcome Hcase) as Hfst.
  pose proof (bracket_lookup_sends league_name leagues_url
                (api_headers access_token) s0) as Hsent.
  destruct (bracket_lookup _ _ _ s0) as [looked_up s1].
  cbn in Hfst, Hsent. subst looked_up. rewrite Hrequests in Hsent.
  destruct outcome as [league_id | result]; cbn; [ | now split ].
  intros encoded_league Hquote.
  destruct league_id as [ | | | | name | | ]; try discriminate.
  injection Hquote as <-.
  pose proof (entry_search_sends league_name character_name
                (api_headers access_token) name s1) as Hladder.
  destruct (entry_search _ _ _ _ s1) as [[found | e] s2];
    cbn in Hladder |- *; rewrite Hsent in Hladder; [ exact Hladder | ].
  destruct (is_Exception e); cbn; [ | exact Hladder ].
  destruct (log_level _ =? DEBUG); cbn;
    now rewrite ?requests_push, ?requests_logged.
Qed.

(** ** Rate limiting *)

Lemma entry_search_429 league_name character_name hdrs league_id s r :
  net (nreq s) = Answer r -> status_code r = 429 ->
  entry_search league_name character_name hdrs (PStr league_id) s
    = (Val None,
       logged WARNING (MsgRateLimited (retry_after r))
         (rate_limit_state_logged r
            (push (EvRequest (GET (ladder_url (quote_str league_id)) hdrs))
               (logged DEBUG
                  (MsgFetchingLadder (ladder_url (quote_str league_id)))
                  s)))).
Proof.
  intros Hnet Hstatus.
  unfold entry_search, quote, send, rate_limit_state_logged, retry_after.
  run. rewrite nreq_logged, Hnet. cbn.
  destruct (header_get "X-Rate-Limit-Client-State" (headers r)); cbn;
    now rewrite Hstatus.
Qed.

(** ** An empty token *)

Lemma not_missing_truthy o : given o -> truthy (of_option o) = true.
Proof.
  intros (v & -> & Hv). cbn. apply negb_true_iff. now apply String.eqb_neq.
Qed.

Lemma nreq_configured debug s : nreq (configured debug s) = nreq s.
Proof. unfold configured. now destruct (log_configured s). Qed.

Lemma nopen_configured debug s : nopen (configured debug s) = nopen s.
Proof. unfold configured. now destruct (log_configured s). Qed.

(** C9: when the token endpoint answers 200 with a JSON object whose
    access token is the empty string, [main] logs the three fatal errors
    and returns without entering the poll loop: it has sent the token
    request and nothing else, whatever the number of cycles the operator
    would have allowed, and ends in the very state it ends in when the
    field is absent. *)
Theorem main_empty_token_fatal a fuel s r d :
  given (client_id a) -> given (client_secret a) ->
  net (nreq s) = Answer r ->
  status_code r = 200 ->
  json_body r = Some (PDict d) ->
  assoc "access_token" d = Some (PStr "") \/ assoc "access_token" d = None ->
  let token_request :=
    POST token_url
      [("Content-Type", "application/x-www-form-urlencoded");
       ("User-Agent", user_agent)]
      [("client_id", of_option (client_id a));
       ("client_secret", of_option (client_secret a));
       ("grant_type", PStr "client_credentials");
       ("scope", PStr "service:leagues service:leagues:ladder")] in
  let final :=
    logged ERROR MsgRunWithCredentials
      (logged ERROR MsgVisitDocs
         (logged ERROR MsgCouldNotObtainToken
            (logged DEBUG MsgTokenObtained
               (push (EvRequest token_request)
                  (logged DEBUG MsgRequestingToken
                     (configured (debug a)
                        (push (EvPrint disclaimer) s))))))) in
  main a fuel s = (Val tt, final)
  /\ nreq final = S (nreq s)
  /\ nopen final = nopen s
  /\ fs final = fs s.
Proof.
  intros Hid Hsecret Hnet Hstatus Hjson Htoken token_request final.
  split.
  - unfold main, get_oauth_token, configure_logging, send.
    rewrite (not_missing_truthy _ Hid), (not_missing_truthy _ Hsecret).
    run. rewrite nreq_logged, nreq_configured, nreq_push. cbn.
    rewrite Hnet, Hstatus. cbn. unfold response_json. rewrite Hjson. cbn.
    unfold get_default. now destruct Htoken as [-> | ->].
  - unfold final. repeat split.
    + rewrite !nreq_logged, nreq_push. cbn.
      now rewrite nreq_logged, nreq_configured, nreq_push.
    + rewrite !nopen_logged, nopen_push. cbn.
      now rewrite nopen_logged, nopen_configured, nopen_push.
    + rewrite !fs_logged, fs_push, fs_logged.
      unfold configured. now destruct (log_configured _).
Qed.

(** * Further properties *)

(** ** What a computation can raise *)

Lemma raises_only_weaken {A} (P Q : exn -> bool) (c : M A) :
  raises_only P c -> (forall e, P e = true -> Q e = true) ->
  raises_only Q c.
Proof. intros Hc HPQ s e He. eauto. Qed.

Lemma raises_only_ret {A} P (a : A) : raises_only P (ret a).
Proof. intros s e. discriminate. Qed.

Lemma raises_only_log P lvl m : raises_only P (log lvl m).
Proof. intros s e. discriminate. Qed.

Lemma raises_only_emit P ev : raises_only P (emit ev).
Proof. intros s e. discriminate. Qed.

Lemma raises_only_traceback P : raises_only P traceback_print_exc.
Proof. intros s e. discriminate. Qed.

Lemma raises_only_effective_level P : raises_only P effective_level.
Proof. intros s e. discriminate. Qed.

Lemma raises_only_configure_logging P debug :
  raises_only P (configure_logging debug).
Proof. intros s e. discriminate. Qed.

Lemma raises_only_raise {A} (P : exn -> bool) e :
  P e = true -> raises_only P (@raise A e).
Proof. intros HP s e' [= <-]. exact HP. Qed.

Lemma raises_only_lift {A} (r : res A) :
  pure_exn r -> raises_only is_Exception (lift r).
Proof. intros Hr s e. cbn. apply Hr. Qed.

Lemma raises_only_send rq : raises_only is_Exception (send rq).
Proof.
  intros s e. unfold send. destruct (net (nreq s)); cbn; [ discriminate | ].
  now intros [= <-].
Qed.

Lemma raises_only_write_file path content :
  raises_only is_Exception (write_file path content).
Proof.
  intros s e. unfold write_file.
  destruct (io_ok (nopen s)); cbn; [ discriminate | ]. now intros [= <-].
Qed.

Lemma raises_only_bind {A B} P (c : M A) (k : A -> M B) :
  raises_only P c -> (forall a, raises_only P (k a)) ->
  raises_only P (bind c k).
Proof.
  intros Hc Hk s e. unfold bind. specialize (Hc s).
  destruct (c s) as [[a | e'] s']; cbn in Hc |- *.
  - apply Hk.
  - intros [= <-]. now apply Hc.
Qed.

Lemma raises_only_when P b c : raises_only P c -> raises_only P (when b c).
Proof. intros Hc. destruct b; [ exact Hc | apply raises_only_ret ]. Qed.

(** A [try] raises what its block raises and its clause does not catch,
    and what its handler raises. *)
Lemma raises_only_try_except {A} P Q (c : M A) caught h :
  raises_only Q c ->
  (forall e, Q e = true -> caught e = false -> P e = true) ->
  (forall e, raises_only P (h e)) ->
  raises_only P (try_except c caught h).
Proof.
  intros Hc Hpass Hh s e. unfold try_except. specialize (Hc s).
  destruct (c s) as [[a | e'] s']; cbn in Hc |- *; [ discriminate | ].
  destruct (caught e') eqn:Hcaught.
  - apply Hh.
  - cbn. intros [= <-]. apply Hpass; [ now apply Hc | exact Hcaught ].
Qed.

Lemma pure_exn_dict_get v k dflt : pure_exn (dict_get v k dflt).
Proof. intros e. destruct v; cbn; try discriminate; now intros [= <-]. Qed.

Lemma pure_exn_py_iter v : pure_exn (py_iter v).
Proof. intros e. destruct v; cbn; try discriminate; now intros [= <-]. Qed.

Lemma pure_exn_quote v : pure_exn (quote v).
Proof. intros e. destruct v; cbn; try discriminate; now intros [= <-]. Qed.

Lemma pure_exn_response_json r : pure_exn (response_json r).
Proof.
  intros e. unfold response_json.
  destruct (json_body r); [ discriminate | now intros [= <-] ].
Qed.

Lemma pure_exn_find_league league_name leagues :
  pure_exn (find_league league_name leagues).
Proof. intros e. apply find_league_exception. Qed.

Create HintDb raises.

#[local] Hint Resolve raises_only_ret raises_only_log raises_only_emit
  raises_only_traceback raises_only_effective_level
  raises_only_configure_logging raises_only_lift raises_only_send
  raises_only_write_file pure_exn_dict_get pure_exn_py_iter pure_exn_quote
  pure_exn_response_json pure_exn_find_league : raises.

(** Takes a goal [raises_only P c] apart along the binds and branches
    of c. *)
Ltac raises :=
  repeat first
    [ solve [ auto with raises ]
    | apply raises_only_when
    | apply raises_only_bind; [ | intro ]
    | match goal with
      | |- raises_only _ (if ?b then _ else _) => destruct b
      | |- raises_only _ (match ?x with _ => _ end) => destruct x
      end ].

Lemma search_entries_raises character_name entries :
  raises_only is_Exception (search_entries character_name entries).
Proof.
  induction entries as [ | entry rest IH ]; cbn [search_entries]; raises.
Qed.

#[local] Hint Resolve search_entries_raises : raises.

Lemma search_ladder_raises character_name r :
  raises_only is_Exception (search_ladder character_name r).
Proof.
  unfold search_ladder.
  apply raises_only_try_except with (Q := is_Exception);
    [ raises | auto | intro; raises ].
Qed.

#[local] Hint Resolve search_ladder_raises : raises.

Lemma entry_search_raises league_name character_name hdrs league_id :
  raises_only is_Exception
    (entry_search league_name character_name hdrs league_id).
Proof. unfold entry_search. raises. Qed.

Lemma bracket_lookup_never_raises league_name leagues_url hdrs :
  raises_only no_exn (bracket_lookup league_name leagues_url hdrs).
Proof.
  unfold bracket_lookup, fetch_league_id.
  apply raises_only_try_except with (Q := is_Exception);
    [ raises | congruence | intro; raises ].
Qed.

Lemma get_character_rank_never_raises league_name character_name
    access_token :
  raises_only no_exn
    (get_character_rank league_name character_name access_token).
Proof.
  unfold get_character_rank.
  apply raises_only_bind; [ raises | intros _ ].
  destruct (negb (truthy access_token)); [ raises | ].
  apply raises_only_try_except with (Q := is_Exception);
    [ | congruence | intro; raises ].
  apply raises_only_bind; [ raises | intros _ ].
  apply raises_only_bind;
    [ apply raises_only_weaken with (P := no_exn);
      [ apply bracket_lookup_never_raises | discriminate ]
    | intros [league_id | result];
      [ apply entry_search_raises | raises ] ].
Qed.

Lemma write_output_never_raises output_file character_data ladder_name :
  raises_only no_exn (write_output output_file character_data ladder_name).
Proof.
  unfold write_output.
  apply raises_only_try_except with (Q := is_Exception);
    [ raises | congruence | intro; raises ].
Qed.

Lemma get_oauth_token_never_raises client_id client_secret :
  raises_only no_exn (get_oauth_token client_id client_secret).
Proof.
  unfold get_oauth_token.
  destruct (negb (truthy (of_option client_id))
            || negb (truthy (of_option client_secret))); [ raises | ].
  apply raises_only_try_except with (Q := is_Exception);
    [ raises | congruence | intro; raises ].
Qed.

(** A computation that raises nothing returns. *)
Lemma never_raises_returns {A} (c : M A) s :
  raises_only no_exn c -> exists a, fst (c s) = Val a.
Proof.
  intros Hc. specialize (Hc s).
  destruct (fst (c s)) as [a | e]; [ now exists a | ].
  now specialize (Hc e eq_refl).
Qed.

(** ** What a computation keeps

    A relation between the state before and the state after that is a
    preorder and holds across each primitive the program uses holds across
    the program. *)

Create HintDb frames.

Section Frames.

Variable R : state -> state -> Prop.
Hypothesis R_refl : forall s, R s s.
Hypothesis R_trans : forall s1 s2 s3, R s1 s2 -> R s2 s3 -> R s1 s3.
Hypothesis R_logged : forall lvl m s, R s (logged lvl m s).
Hypothesis R_request : forall rq s, R s (push (EvRequest rq) s).
Hypothesis R_traceback : forall s, R s (push EvTraceback s).
Hypothesis R_dump :
  forall content s,
    log_level s = DEBUG ->
    R s (push (EvOpen "ladder_debug.json")
           (stored "ladder_debug.json" content s))
    /\ R s (push (EvOpen "ladder_debug.json") s).
Hypothesis R_sleep : forall ms s, R s (push (EvSleep ms) s).

Lemma preserves_ret {A} (a : A) : preserves R (ret a).
Proof. intros s. apply R_refl. Qed.

Lemma preserves_lift {A} (r : res A) : preserves R (lift r).
Proof. intros s. apply R_refl. Qed.

Lemma preserves_raise {A} e : preserves R (@raise A e).
Proof. intros s. apply R_refl. Qed.

Lemma preserves_effective_level : preserves R effective_level.
Proof. intros s. apply R_refl. Qed.

Lemma preserves_log lvl m : preserves R (log lvl m).
Proof. intros s. apply R_logged. Qed.

Lemma preserves_traceback : preserves R traceback_print_exc.
Proof. intros s. apply R_traceback. Qed.

Lemma preserves_send rq : preserves R (send rq).
Proof. intros s. unfold send. destruct (net (nreq s)); apply R_request. Qed.

Lemma preserves_bind_at {A B} (c : M A) (k : A -> M B) s :
  R s (snd (c s)) -> (forall a, preserves R (k a)) ->
  R s (snd (bind c k s)).
Proof.
  intros Hc Hk. unfold bind.
  destruct (c s) as [[a | e] s']; cbn in Hc |- *; [ | exact Hc ].
  apply R_trans with s'; [ exact Hc | apply Hk ].
Qed.

Lemma preserves_bind {A B} (c : M A) (k : A -> M B) :
  preserves R c -> (forall a, preserves R (k a)) -> preserves R (bind c k).
Proof. intros Hc Hk s. now apply preserves_bind_at. Qed.

Lemma preserves_try_except {A} (c : M A) caught h :
  preserves R c -> (forall e, preserves R (h e)) ->
  preserves R (try_except c caught h).
Proof.
  intros Hc Hh s. unfold try_except. specialize (Hc s).
  destruct (c s) as [[a | e] s']; cbn in Hc |- *; [ exact Hc | ].
  destruct (caught e); [ | exact Hc ].
  apply R_trans with s'; [ exact Hc | apply Hh ].
Qed.

Lemma preserves_when b c : preserves R c -> preserves R (when b c).
Proof. intros Hc. destruct b; [ exact Hc | apply preserves_ret ]. Qed.

#[local] Hint Resolve preserves_ret preserves_lift preserves_raise
  preserves_effective_level preserves_log preserves_traceback
  preserves_send : frames.

(** Takes a goal [preserves R c] apart along the binds and branches
    of c. *)
Ltac frames :=
  repeat first
    [ solve [ auto with frames ]
    | apply preserves_when
    | apply preserves_bind; [ | intro ]
    | apply preserves_try_except; [ | intro ]
    | match goal with
      | |- preserves _ (if ?b then _ else _) => destruct b
      | |- preserves _ (match ?x with _ => _ end) => destruct x
      end ].

Lemma search_entries_preserves character_name entries :
  preserves R (search_entries character_name entries).
Proof.
  induction entries as [ | entry rest IH ]; cbn [search_entries]; frames.
Qed.

#[local] Hint Resolve search_entries_preserves : frames.

Lemma bracket_lookup_preserves league_name leagues_url hdrs :
  preserves R (bracket_lookup league_name leagues_url hdrs).
Proof. unfold bracket_lookup, fetch_league_id. frames. Qed.

#[local] Hint Resolve bracket_lookup_preserves : frames.

(** The dump of lines 199-202 is the one step that depends on the level. *)
Lemma dump_preserved_at ladder_data s :
  R s (snd (when (log_level s =? DEBUG)
              (write_file "ladder_debug.json" (json_dumps ladder_data) ;;
               log DEBUG MsgSavedDump) s)).
Proof.
  destruct (log_level s =? DEBUG) eqn:Hlevel; cbn [when];
    [ | apply R_refl ].
  apply Z.eqb_eq in Hlevel.
  destruct (R_dump (json_dumps ladder_data) s Hlevel) as [Hstored Hfailed].
  unfold bind, write_file, log.
  destruct (io_ok (nopen s)); cbn; [ | exact Hfailed ].
  eapply R_trans; [ exact Hstored | apply R_logged ].
Qed.

Lemma search_ladder_preserves character_name r :
  preserves R (search_ladder character_name r).
Proof.
  unfold search_ladder.
  apply preserves_try_except; [ | intro; frames ].
  apply preserves_bind; [ frames | intros ladder_data ].
  intros s. unfold bind at 1. cbn [effective_level].
  apply preserves_bind_at; [ apply dump_preserved_at | intros _ ].
  frames.
Qed.

#[local] Hint Resolve search_ladder_preserves : frames.

Lemma entry_search_preserves league_name character_name hdrs league_id :
  preserves R (entry_search league_name character_name hdrs league_id).
Proof. unfold entry_search. frames. Qed.

#[local] Hint Resolve entry_search_preserves : frames.

Lemma get_character_rank_preserves league_name character_name access_token :
  preserves R (get_character_rank league_name character_name access_token).
Proof. unfold get_character_rank. frames. Qed.

Lemma get_oauth_token_preserves client_id client_secret :
  preserves R (get_oauth_token client_id client_secret).
Proof. unfold get_oauth_token. frames. Qed.

Variable output_file : string.
Hypothesis R_output :
  forall content s,
    R s (push (EvOpen output_file) (stored output_file content s))
    /\ R s (push (EvOpen output_file) s).

Lemma write_file_output_preserves content :
  preserves R (write_file output_file content).
Proof.
  intros s. unfold write_file.
  destruct (R_output content s) as [Hstored Hfailed].
  now destruct (io_ok (nopen s)).
Qed.

#[local] Hint Resolve write_file_output_preserves : frames.

Lemma write_output_preserves character_data ladder_name :
  preserves R (write_output output_file character_data ladder_name).
Proof. unfold write_output. frames. Qed.

Lemma preserves_sleep update_interval_ms :
  preserves R (sleep update_interval_ms).
Proof.
  unfold sleep.
  destruct (sleep_limit <=? Z.abs update_interval_ms); [ frames | ].
  destruct (update_interval_ms <? 0); [ frames | ].
  intros s. destruct (sleep_ok (nsleep s)); [ apply R_sleep | apply R_refl ].
Qed.

Lemma cycle_preserves league_name character_name access_token
    update_interval_ms :
  preserves R
    (cycle league_name character_name access_token output_file
       update_interval_ms).
Proof.
  unfold cycle.
  apply preserves_bind; [ apply get_character_rank_preserves | intro ].
  apply preserves_bind; [ apply write_output_preserves | intro ].
  apply preserves_bind; [ frames | intro ].
  apply preserves_sleep.
Qed.

Lemma poll_loop_preserves fuel league_name character_name access_token
    update_interval_ms :
  preserves R
    (poll_loop fuel league_name character_name access_token output_file
       update_interval_ms).
Proof.
  induction fuel as [ | fuel IH ]; cbn [poll_loop]; [ frames | ].
  apply preserves_bind; [ apply cycle_preserves | intros _; exact IH ].
Qed.

(** A whole run, for a relation that also holds across the line printed
    first and across the configuration of the logger. *)
Lemma main_preserves a fuel :
  output a = output_file ->
  (forall line s, R s (push (EvPrint line) s)) ->
  (forall s, R s (configured (debug a) s)) ->
  preserves R (main a fuel).
Proof.
  intros Houtput R_print R_configured. unfold main, configure_logging.
  apply preserves_bind; [ intros s; apply R_print | intros _ ].
  apply preserves_bind; [ intros s; apply R_configured | intros _ ].
  apply preserves_bind; [ apply get_oauth_token_preserves | intros token ].
  destruct (negb (truthy token)); [ frames | ].
  apply preserves_bind; [ unfold seconds; frames | intros _ ].
  do 3 (apply preserves_bind; [ frames | intros _ ]).
  rewrite Houtput.
  apply preserves_try_except; [ apply poll_loop_preserves | intros e ].
  destruct e; frames.
Qed.

End Frames.

(** ** Calls that always return *)

(** X1: a call of [get_character_rank] returns, whatever the token, the
    answers of the network and the fate of the debug dump: no exception
    leaves it. *)
Theorem get_character_rank_returns league_name character_name access_token
    s :
  exists result,
    fst (get_character_rank league_name character_name access_token s)
      = Val result.
Proof.
  apply never_raises_returns, get_character_rank_never_raises.
Qed.

(** X2: [write_output] returns, whether or not the file can be opened. *)
Theorem write_output_returns output_file character_data ladder_name s :
  fst (write_output output_file character_data ladder_name s) = Val tt.
Proof.
  destruct (never_raises_returns
              (write_output output_file character_data ladder_name) s
              (write_output_never_raises _ _ _)) as [[] Hval].
  exact Hval.
Qed.

(** X3: when the output file cannot be opened, [write_output] logs the
    error and returns; no file has changed, whatever there was to write. *)
Theorem write_output_open_fails output_file character_data ladder_name s :
  io_ok (nopen s) = false ->
  write_output output_file character_data ladder_name s
    = (Val tt,
       logged ERROR (MsgWriteError OSError) (push (EvOpen output_file) s))
  /\ fs (snd (write_output output_file character_data ladder_name s))
     = fs s.
Proof.
  intros Hio.
  assert (Hrun : write_output output_file character_data ladder_name s
                 = (Val tt,
                    logged ERROR (MsgWriteError OSError)
                      (push (EvOpen output_file) s))).
  { unfold write_output, write_file. run.
    destruct character_data; cbn; now rewrite Hio. }
  split; [ exact Hrun | ].
  rewrite Hrun. cbn [snd]. now rewrite fs_logged.
Qed.

(** ** The token acquirer *)

Lemma sends_after_log {A} sent lvl m (c : M A) :
  sends sent c -> sends sent (log lvl m ;; c).
Proof.
  intros Hc s. unfold bind, log. cbn. now rewrite Hc, requests_logged.
Qed.

Lemma get_oauth_token_sends client_id client_secret :
  given client_id -> given client_secret ->
  sends [EvRequest (token_request client_id client_secret)]
    (get_oauth_token client_id client_secret).
Proof.
  intros Hid Hsecret. unfold get_oauth_token.
  rewrite (not_missing_truthy _ Hid), (not_missing_truthy _ Hsecret).
  cbn [negb orb].
  apply sends_try_except; [ | intro; sends ].
  apply sends_after_log. unfold token_request. sends.
Qed.

(** X4: [get_oauth_token] returns, and it has sent no request when a
    credential is missing, and the one request for the token otherwise. *)
Theorem get_oauth_token_returns client_id client_secret s :
  (exists token,
      fst (get_oauth_token client_id client_secret s) = Val token)
  /\ ((missing client_id \/ missing client_secret)
      /\ requests (snd (get_oauth_token client_id client_secret s))
         = requests s
      \/ (given client_id /\ given client_secret)
         /\ requests (snd (get_oauth_token client_id client_secret s))
            = EvRequest (token_request client_id client_secret)
                :: requests s).
Proof.
  split;
    [ apply never_raises_returns, get_oauth_token_never_raises | ].
  assert (Hcases : forall o, missing o \/ given o).
  { intros [v | ]; [ | left; now left ].
    destruct (String.eqb_spec v "") as [-> | Hv];
      [ left; now right | right; now exists v ]. }
  destruct (Hcases client_id) as [Hid | Hid].
  - left. split; [ now left | ].
    unfold get_oauth_token. rewrite (missing_not_truthy _ Hid). cbn.
    apply requests_logged.
  - destruct (Hcases client_secret) as [Hsecret | Hsecret].
    + left. split; [ now right | ].
      unfold get_oauth_token. rewrite (missing_not_truthy _ Hsecret).
      rewrite orb_true_r. cbn. apply requests_logged.
    + right. split; [ now split | ].
      now rewrite (get_oauth_token_sends _ _ Hid Hsecret).
Qed.

Lemma get_oauth_token_fst client_id client_secret s :
  given client_id -> given client_secret ->
  fst (get_oauth_token client_id client_secret s)
    = match net (nreq s) with
      | NetworkFault => Val PNone
      | Answer r =>
          if status_code r =? 200 then
            match json_body r with
            | None => Val PNone
            | Some token_data =>
                match dict_get token_data "access_token" PNone with
                | Val token => Val token
                | Exc _ => Val PNone
                end
            end
          else Val PNone
      end.
Proof.
  intros Hid Hsecret. unfold get_oauth_token, send, response_json.
  rewrite (not_missing_truthy _ Hid), (not_missing_truthy _ Hsecret).
  run. rewrite nreq_logged.
  destruct (net (nreq s)) as [r | ]; cbn;
    [ | now destruct (log_level _ =? DEBUG) ].
  destruct (status_code r =? 200); cbn; [ | reflexivity ].
  destruct (json_body r) as [token_data | ]; cbn;
    [ | now destruct (log_level _ =? DEBUG) ].
  destruct (dict_get token_data "access_token" PNone) as [token | e] eqn:Hget;
    cbn; [ reflexivity | ].
  rewrite (pure_exn_dict_get _ _ _ _ Hget). cbn.
  now destruct (log_level _ =? DEBUG).
Qed.

(** X5: with both credentials, a 200 answer whose body is a JSON object
    makes [get_oauth_token] return the value of its [access_token] key,
    [None] when the key is absent. *)
Theorem get_oauth_token_success client_id client_secret s r d :
  given client_id -> given client_secret ->
  net (nreq s) = Answer r ->
  status_code r = 200 ->
  json_body r = Some (PDict d) ->
  fst (get_oauth_token client_id client_secret s)
    = Val (get_default d "access_token" PNone).
Proof.
  intros Hid Hsecret Hnet Hstatus Hjson.
  rewrite get_oauth_token_fst by assumption.
  now rewrite Hnet, Hstatus, Hjson.
Qed.

Lemma token_failure_falsy client_id client_secret s :
  given client_id -> given client_secret ->
  token_failure (net (nreq s)) ->
  exists token,
    fst (get_oauth_token client_id client_secret s) = Val token
    /\ truthy token = false.
Proof.
  intros Hid Hsecret Hfail.
  rewrite get_oauth_token_fst by assumption.
  destruct Hfail as [ | r Hstatus | r Hstatus Hjson | r v Hstatus Hjson Hget
                    | r d Hstatus Hjson Hfalsy ].
  - now exists PNone.
  - apply Z.eqb_neq in Hstatus. rewrite Hstatus. now exists PNone.
  - rewrite Hstatus, Hjson. now exists PNone.
  - rewrite Hstatus, Hjson, Hget. now exists PNone.
  - rewrite Hstatus, Hjson. cbn. now eexists.
Qed.

(** X6: with both credentials, the token endpoint leaves
    [get_oauth_token] with a value that counts as no token (it is [None],
    or it is falsy) when the request raises, when the status is not 200,
    when the body is not JSON or not a JSON object, and when the object
    holds no token or a falsy one. *)
Theorem get_oauth_token_failure client_id client_secret s :
  given client_id -> given client_secret ->
  token_failure (net (nreq s)) ->
  exists token,
    fst (get_oauth_token client_id client_secret s) = Val token
    /\ truthy token = false.
Proof. apply token_failure_falsy. Qed.

(** ** The start of [main] *)

Lemma nsleep_push e s :
  nsleep (push e s) = if is_sleep e then S (nsleep s) else nsleep s.
Proof. unfold nsleep, count_events, push. cbn. now destruct (is_sleep e). Qed.

Lemma nsleep_logged lvl m s : nsleep (logged lvl m s) = nsleep s.
Proof.
  unfold logged. destruct (log_level s <=? lvl); [ apply nsleep_push | easy ].
Qed.

Lemma requests_configured debug s :
  requests (configured debug s) = requests s.
Proof. unfold configured. now destruct (log_configured s). Qed.

Lemma idle_refl s : idle s s.
Proof. now repeat split. Qed.

Lemma idle_trans s1 s2 s3 : idle s1 s2 -> idle s2 s3 -> idle s1 s3.
Proof.
  intros (Hfs & Hopen & Hsleep) (Hfs' & Hopen' & Hsleep').
  repeat split; congruence.
Qed.

Lemma idle_logged lvl m s : idle s (logged lvl m s).
Proof.
  repeat split; [ apply fs_logged | apply nopen_logged | apply nsleep_logged ].
Qed.

Lemma idle_push e s : is_open e = false -> is_sleep e = false ->
  idle s (push e s).
Proof.
  intros Hopen Hsleep. repeat split.
  - now rewrite nopen_push, Hopen.
  - now rewrite nsleep_push, Hsleep.
Qed.

Lemma idle_configured debug s : idle s (configured debug s).
Proof. unfold configured. destruct (log_configured s); now repeat split. Qed.

Lemma get_oauth_token_idle client_id client_secret :
  preserves idle (get_oauth_token client_id client_secret).
Proof.
  apply get_oauth_token_preserves.
  - apply idle_refl.
  - apply idle_trans.
  - apply idle_logged.
  - intros rq s. now apply idle_push.
  - intros s. now apply idle_push.
Qed.

(** What [main] does when the token it got counts as none. *)
Lemma main_without_token a fuel s token :
  fst (get_oauth_token (client_id a) (client_secret a)
         (configured (debug a) (push (EvPrint disclaimer) s))) = Val token ->
  truthy token = false ->
  main a fuel s
    = (Val tt,
       logged ERROR MsgRunWithCredentials
         (logged ERROR MsgVisitDocs
            (logged ERROR MsgCouldNotObtainToken
               (snd (get_oauth_token (client_id a) (client_secret a)
                       (configured (debug a)
                          (push (EvPrint disclaimer) s))))))).
Proof.
  intros Htoken Hfalsy. unfold main, configure_logging. run.
  destruct (get_oauth_token _ _ _) as [got s1]. cbn in Htoken |- *.
  subst got. now rewrite Hfalsy.
Qed.

(** X7: when a credential is missing, [main] logs the four errors and
    returns: it has sent no request, for every number of cycles the
    operator would have allowed. *)
Theorem main_missing_credentials a fuel s :
  missing (client_id a) \/ missing (client_secret a) ->
  main a fuel s
    = (Val tt,
       logged ERROR MsgRunWithCredentials
         (logged ERROR MsgVisitDocs
            (logged ERROR MsgCouldNotObtainToken
               (logged ERROR MsgCredentialsRequired
                  (configured (debug a) (push (EvPrint disclaimer) s))))))
  /\ requests (snd (main a fuel s)) = requests s.
Proof.
  intros Hmissing.
  assert (Htoken :
            get_oauth_token (client_id a) (client_secret a)
              (configured (debug a) (push (EvPrint disclaimer) s))
            = (Val PNone,
               logged ERROR MsgCredentialsRequired
                 (configured (debug a) (push (EvPrint disclaimer) s)))).
  { unfold get_oauth_token.
    destruct Hmissing as [H | H]; apply missing_not_truthy in H; rewrite H;
      [ reflexivity | now rewrite orb_true_r ]. }
  assert (Hrun := main_without_token a fuel s PNone).
  rewrite Htoken in Hrun. specialize (Hrun eq_refl eq_refl).
  split; [ exact Hrun | ].
  rewrite Hrun. cbn [snd].
  now rewrite !requests_logged, requests_configured, requests_push.
Qed.

(** X8: with both credentials, when the token endpoint gives no token
    ([token_failure]: the request raises, the status is not 200, the body
    is not a JSON object, the token is absent or falsy), [main] logs the
    three fatal errors after the attempt and returns.  The request for the
    token is the only one it has sent; it has opened no file and has not
    slept, for every number of cycles the operator would have allowed. *)
Theorem main_token_failure a fuel s :
  given (client_id a) -> given (client_secret a) ->
  token_failure (net (nreq s)) ->
  main a fuel s
    = (Val tt,
       logged ERROR MsgRunWithCredentials
         (logged ERROR MsgVisitDocs
            (logged ERROR MsgCouldNotObtainToken
               (snd (get_oauth_token (client_id a) (client_secret a)
                       (configured (debug a)
                          (push (EvPrint disclaimer) s)))))))
  /\ requests (snd (main a fuel s))
     = EvRequest (token_request (client_id a) (client_secret a))
         :: requests s
  /\ idle s (snd (main a fuel s)).
Proof.
  intros Hid Hsecret Hfail.
  set (s0 := configured (debug a) (push (EvPrint disclaimer) s)).
  assert (Hnreq : nreq s0 = nreq s).
  { unfold s0. now rewrite nreq_configured, nreq_push. }
  rewrite <- Hnreq in Hfail.
  destruct (token_failure_falsy _ _ s0 Hid Hsecret Hfail)
    as (token & Htoken & Hfalsy).
  assert (Hrun := main_without_token a fuel s token Htoken Hfalsy).
  fold s0 in Hrun.
  split; [ exact Hrun | ]. rewrite Hrun. cbn [snd]. split.
  - rewrite !requests_logged.
    rewrite (get_oauth_token_sends _ _ Hid Hsecret). unfold s0.
    now rewrite requests_configured, requests_push.
  - repeat (eapply idle_trans; [ | apply idle_logged ]).
    eapply idle_trans; [ | apply get_oauth_token_idle ].
    eapply idle_trans; [ | apply idle_configured ].
    now apply idle_push.
Qed.

(** X9: when the interval divided by 1000 fits a float, [main] returns,
    whatever the answers of the network, the fate of its files and of its
    sleeps, and the number of cycles before the interrupt: every exception
    of a cycle is caught inside the cycle or by the clauses around the
    loop, and so is the interrupt that ends the loop. *)
Theorem main_returns a fuel s :
  Z.abs (update a) < float_limit -> fst (main a fuel s) = Val tt.
Proof.
  intros Hinterval. apply Z.leb_gt in Hinterval.
  assert (Hmain : raises_only no_exn (main a fuel)).
  { unfold main, seconds. rewrite Hinterval.
    apply raises_only_bind; [ raises | intros _ ].
    apply raises_only_bind; [ raises | intros _ ].
    apply raises_only_bind;
      [ apply get_oauth_token_never_raises | intros access_token ].
    destruct (negb (truthy access_token)); [ raises | ].
    do 4 (apply raises_only_bind; [ raises | intros _ ]).
    apply raises_only_try_except with (Q := fun _ => true);
      [ easy | discriminate | intros e; destruct e; raises ]. }
  destruct (never_raises_returns _ s Hmain) as [[] Hval]. exact Hval.
Qed.

(** Line 309 stands outside the [try] of line 317. *)
Lemma main_with_token_overflow a fuel s token :
  fst (get_oauth_token (client_id a) (client_secret a)
         (configured (debug a) (push (EvPrint disclaimer) s))) = Val token ->
  truthy token = true ->
  float_limit <= Z.abs (update a) ->
  main a fuel s
    = (Exc OverflowError,
       snd (get_oauth_token (client_id a) (client_secret a)
              (configured (debug a) (push (EvPrint disclaimer) s)))).
Proof.
  intros Htoken Htruthy Hinterval. apply Z.leb_le in Hinterval.
  unfold main, configure_logging, seconds. run.
  destruct (get_oauth_token _ _ _) as [got s1]. cbn in Htoken |- *.
  subst got. now rewrite Htruthy, Hinterval.
Qed.

(** X21: with a token, an interval too large to be divided into a float
    makes [main] raise [OverflowError] before its first cycle: the request
    for the token is the only one it has sent, it has opened no file and
    has not slept, for every number of cycles the operator would have
    allowed. *)
Theorem main_interval_overflow a fuel s r d :
  given (client_id a) -> given (client_secret a) ->
  net (nreq s) = Answer r ->
  status_code r = 200 ->
  json_body r = Some (PDict d) ->
  truthy (get_default d "access_token" PNone) = true ->
  float_limit <= Z.abs (update a) ->
  fst (main a fuel s) = Exc OverflowError
  /\ requests (snd (main a fuel s))
     = EvRequest (token_request (client_id a) (client_secret a))
         :: requests s
  /\ idle s (snd (main a fuel s)).
Proof.
  intros Hid Hsecret Hnet Hstatus Hjson Htruthy Hinterval.
  set (s0 := configured (debug a) (push (EvPrint disclaimer) s)).
  assert (Hnreq : nreq s0 = nreq s).
  { unfold s0. now rewrite nreq_configured, nreq_push. }
  assert (Htoken : fst (get_oauth_token (client_id a) (client_secret a) s0)
                   = Val (get_default d "access_token" PNone)).
  { rewrite get_oauth_token_fst by assumption.
    now rewrite Hnreq, Hnet, Hstatus, Hjson. }
  rewrite (main_with_token_overflow a fuel s _ Htoken Htruthy Hinterval).
  fold s0. cbn [fst snd]. split; [ reflexivity | split ].
  - rewrite (get_oauth_token_sends _ _ Hid Hsecret). unfold s0.
    now rewrite requests_configured, requests_push.
  - eapply idle_trans; [ | apply get_oauth_token_idle ].
    eapply idle_trans; [ | apply idle_configured ].
    now apply idle_push.
Qed.

(** ** The requests of a call, by the outcome of the lookup *)

Lemma get_character_rank_by_outcome league_name character_name access_token
    s outcome :
  truthy access_token = true ->
  fst (bracket_lookup league_name leagues_url (api_headers access_token)
         (logged DEBUG (MsgFetchingLeagues leagues_url)
            (logged INFO (MsgCheckingLadder league_name) s))) = Val outcome ->
  let listing := EvRequest (GET leagues_url (api_headers access_token)) in
  let call := get_character_rank league_name character_name access_token s in
  match outcome with
  | Return result =>
      fst call = Val result /\ requests (snd call) = listing :: requests s
  | Continue (PStr league_id) =>
      requests (snd call)
      = EvRequest (GET (ladder_url (quote_str league_id))
                     (api_headers access_token))
          :: listing :: requests s
  | Continue _ =>
      fst call = Val None /\ requests (snd call) = listing :: requests s
  end.
Proof.
  intros Htoken Hfst listing call. unfold call, get_character_rank. run.
  rewrite Htoken. cbn.
  set (s0 := logged DEBUG _ (logged INFO _ s)) in *.
  assert (Hrequests : requests s0 = requests s).
  { unfold s0. now rewrite !requests_logged. }
  pose proof (bracket_lookup_sends league_name leagues_url
                (api_headers access_token) s0) as Hsent.
  destruct (bracket_lookup _ _ _ s0) as [looked_up s1].
  cbn in Hfst, Hsent. subst looked_up. rewrite Hrequests in Hsent.
  destruct outcome as [league_id | result]; cbn; [ | now split ].
  destruct league_id as [ | | | | name | | ];
    try (unfold entry_search; run;
         destruct (log_level _ =? DEBUG); cbn;
         now rewrite ?requests_push, ?requests_logged).
  pose proof (entry_search_sends league_name character_name
                (api_headers access_token) name s1) as Hladder.
  destruct (entry_search _ _ _ _ s1) as [[found | e] s2];
    cbn in Hladder |- *; rewrite Hsent in Hladder; [ exact Hladder | ].
  destruct (is_Exception e); cbn; [ | exact Hladder ].
  destruct (log_level _ =? DEBUG); cbn;
    now rewrite ?requests_push, ?requests_logged.
Qed.

(** X10: a call of [get_character_rank] sends no request when the token
    is falsy, and returns [None]; with a token it asks for the listing,
    and after that at most for one ladder; both requests are GETs with the
    bearer token in their headers. *)
Theorem get_character_rank_requests league_name character_name access_token
    s :
  let listing := EvRequest (GET leagues_url (api_headers access_token)) in
  let call := get_character_rank league_name character_name access_token s in
  truthy access_token = false
  /\ fst call = Val None /\ requests (snd call) = requests s
  \/ truthy access_token = true
     /\ (requests (snd call) = listing :: requests s
         \/ exists encoded_league,
             requests (snd call)
             = EvRequest (GET (ladder_url encoded_league)
                            (api_headers access_token))
                 :: listing :: requests s).
Proof.
  intros listing call.
  destruct (truthy access_token) eqn:Htoken; [ right | left ].
  - split; [ reflexivity | ].
    pose proof (get_character_rank_by_outcome league_name character_name
                  access_token s) as Hcall.
    destruct (bracket_lookup_outcome league_name leagues_url
                (api_headers access_token)
                (logged DEBUG (MsgFetchingLeagues leagues_url)
                   (logged INFO (MsgCheckingLadder league_name) s)))
      as [Hout | (league_id & Hout)].
    + left. now apply (Hcall _ Htoken Hout).
    + specialize (Hcall _ Htoken Hout).
      destruct league_id; try (left; now apply Hcall).
      right. eexists. exact Hcall.
  - split; [ reflexivity | ].
    unfold call, get_character_rank. run. rewrite Htoken. cbn.
    split; [ reflexivity | now rewrite !requests_logged ].
Qed.

Lemma find_league_first league_name passed l rest :
  forallb (league_passed league_name) passed = true ->
  get_default l "name" PNone = PStr league_name ->
  find_league league_name (passed ++ PDict l :: rest)
    = Val (get_default l "id" PNone).
Proof.
  intros Hpassed Hname.
  induction passed as [ | league passed IH ]; cbn [app find_league].
  - cbn. rewrite Hname. cbn. now rewrite String.eqb_refl.
  - cbn [forallb] in Hpassed. apply andb_true_iff in Hpassed as [Hleague Hrest].
    unfold league_passed in Hleague.
    destruct (dict_get league "name" PNone) as [name | e]; [ | discriminate ].
    apply negb_true_iff in Hleague. rewrite Hleague. now apply IH.
Qed.

(** X11: when the listing answers 200 and holds leagues of the display
    name, the lookup goes on with the id of the first of them in listing
    order; when that id is a non-empty [str], the call asks for the ladder
    under the percent-encoded id, not under the name. *)
Theorem listed_league_is_requested league_name character_name access_token
    s r d passed l rest league_id :
  truthy access_token = true ->
  net (nreq s) = Answer r ->
  status_code r = 200 ->
  json_body r = Some (PDict d) ->
  get_default d "leagues" (PList []) = PList (passed ++ PDict l :: rest) ->
  forallb (league_passed league_name) passed = true ->
  get_default l "name" PNone = PStr league_name ->
  get_default l "id" PNone = PStr league_id ->
  league_id <> "" ->
  (forall leagues_url hdrs,
      fst (bracket_lookup league_name leagues_url hdrs s)
        = Val (Continue (PStr league_id)))
  /\ requests (snd (get_character_rank league_name character_name
                      access_token s))
     = EvRequest (GET (ladder_url (quote_str league_id))
                    (api_headers access_token))
         :: EvRequest (GET leagues_url (api_headers access_token))
         :: requests s.
Proof.
  intros Htoken Hnet Hstatus Hjson Hleagues Hpassed Hname Hid Hnonempty.
  assert (Hcase : forall s0, nreq s0 = nreq s ->
            listing_case league_name (net (nreq s0))
              (Continue (PStr league_id))).
  { intros s0 ->. rewrite Hnet. apply listing_found.
    - exact Hstatus.
    - unfold listed_id, response_json. rewrite Hjson. cbn.
      rewrite Hleagues. cbn.
      now rewrite (find_league_first _ _ _ _ Hpassed Hname), Hid.
    - cbn. apply negb_true_iff. now apply String.eqb_neq. }
  split.
  - intros leagues_url hdrs. now apply bracket_lookup_fst, Hcase.
  - apply (get_character_rank_by_outcome league_name character_name
             access_token s (Continue (PStr league_id)) Htoken).
    apply bracket_lookup_fst, Hcase. now rewrite !nreq_logged.
Qed.

(** ** A result comes from the ladder *)

Lemma eq_str_true v s : eq_str v s = true -> v = PStr s.
Proof.
  destruct v; cbn; try discriminate.
  intros H. apply String.eqb_eq in H. now subst.
Qed.

Lemma search_entries_found_inv character_name items s found :
  fst (search_entries character_name items s) = Val (Some found) ->
  exists passed e c rest,
    items = (passed ++ PDict e :: rest)%list
    /\ forallb (entry_passed character_name) passed = true
    /\ get_default e "character" (PDict []) = PDict c
    /\ get_default c "name" (PStr "") = PStr character_name
    /\ found = found_from e c.
Proof.
  induction items as [ | entry rest IH ]; cbn [search_entries]; run;
    [ discriminate | ].
  destruct entry as [ | | | | | | e ]; cbn; try discriminate.
  destruct (get_default e "character" (PDict [])) as [ | | | | | | c ] eqn:Hc;
    cbn; try discriminate.
  destruct (eq_str (get_default c "name" (PStr "")) character_name)
    eqn:Hname; cbn.
  - apply eq_str_true in Hname. intros Hfound.
    exists [], e, c, rest. repeat split; try assumption.
    unfold found_from.
    destruct (truthy (get_default c "dead" (PBool false)));
      cbn in Hfound; [ now injection Hfound as <- | ].
    destruct (truthy (get_default c "retired" (PBool false)));
      cbn in Hfound; now injection Hfound as <-.
  - intros Hfound.
    destruct (IH Hfound) as (passed & e' & c' & rest' & -> & Hpassed & Hrest).
    exists (PDict e :: passed), e', c', rest'.
    split; [ reflexivity | ]. split; [ | exact Hrest ].
    cbn [forallb]. rewrite Hpassed, andb_true_r.
    unfold entry_passed, entry_name. cbn. rewrite Hc. cbn.
    now rewrite Hname.
Qed.

Lemma search_ladder_found_inv character_name r s found :
  fst (search_ladder character_name r s) = Val (Some found) ->
  exists entries items s',
    ladder_entries r = Val entries
    /\ py_iter entries = Val items
    /\ fst (search_entries character_name items s') = Val (Some found).
Proof.
  unfold search_ladder. rewrite try_except_fst.
  match goal with
  | |- match ?body with _ => _ end = _ -> _ =>
      destruct body as [result | e] eqn:Hbody
  end;
    [ intros [= ->]
    | destruct (is_ValueError e); [ run | ]; discriminate ].
  revert Hbody. unfold ladder_entries, write_file. run.
  destruct (response_json r) as [ladder_data | e]; cbn; [ | discriminate ].
  assert (Hrest : forall s0,
            fst
              (bind (lift (dict_get ladder_data "ladder" (PDict [])))
                 (fun ladder_obj =>
                    bind (lift (dict_get ladder_obj "entries" (PList [])))
                      (fun entries =>
                         if negb (truthy entries)
                         then bind (log WARNING MsgNoEntries)
                                (fun _ => ret None)
                         else bind (lift (py_iter entries))
                                (fun entries =>
                                   search_entries character_name entries)))
                 s0) = Val (Some found) ->
            exists entries items s',
              match dict_get ladder_data "ladder" (PDict []) with
              | Val ladder_obj => dict_get ladder_obj "entries" (PList [])
              | Exc e => Exc e
              end = Val entries
              /\ py_iter entries = Val items
              /\ fst (search_entries character_name items s')
                 = Val (Some found)).
  { intros s0. run.
    destruct (dict_get ladder_data "ladder" (PDict [])) as [ladder_obj | e];
      cbn; [ | discriminate ].
    destruct (dict_get ladder_obj "entries" (PList [])) as [entries | e];
      cbn; [ | discriminate ].
    destruct (truthy entries); cbn; [ | discriminate ].
    destruct (py_iter entries) as [items | e] eqn:Hiter; cbn;
      [ | discriminate ].
    intros Hfound. now exists entries, items, s0. }
  destruct (log_level s =? DEBUG); cbn;
    [ destruct (io_ok (nopen s)); cbn; [ | discriminate ] | ];
    apply Hrest.
Qed.

Lemma entry_search_found_inv league_name character_name hdrs league_id s
    found :
  fst (entry_search league_name character_name hdrs league_id s)
    = Val (Some found) ->
  exists r s',
    net (nreq s) = Answer r
    /\ status_code r = 200
    /\ fst (search_ladder character_name r s') = Val (Some found).
Proof.
  unfold entry_search, quote, send.
  destruct league_id as [ | | | | encoded | | ]; run; try discriminate.
  rewrite nreq_logged.
  destruct (net (nreq s)) as [r | ]; cbn; [ | discriminate ].
  destruct (header_get "X-Rate-Limit-Client-State" (headers r)); cbn;
    (destruct (status_code r =? 429); cbn; [ discriminate | ]);
    (destruct (status_code r =? 200) eqn:Hstatus; cbn;
     [ | destruct (status_code r =? 404); cbn; discriminate ]);
    apply Z.eqb_eq in Hstatus; intros Hfound; eauto.
Qed.

Lemma get_character_rank_found_inv league_name character_name access_token
    s found :
  fst (get_character_rank league_name character_name access_token s)
    = Val (Some found) ->
  exists r entries passed e c rest,
    truthy access_token = true
    /\ net (S (nreq s)) = Answer r
    /\ status_code r = 200
    /\ ladder_entries r = Val entries
    /\ py_iter entries = Val (passed ++ PDict e :: rest)%list
    /\ forallb (entry_passed character_name) passed = true
    /\ get_default e "character" (PDict []) = PDict c
    /\ get_default c "name" (PStr "") = PStr character_name
    /\ found = found_from e c.
Proof.
  unfold get_character_rank. unfold bind at 1, log at 1. cbn.
  destruct (truthy access_token) eqn:Htoken; cbn; [ | discriminate ].
  rewrite try_except_fst. unfold bind at 1, log at 1. cbn. unfold bind at 1.
  set (s0 := logged DEBUG _ (logged INFO _ s)).
  assert (Hs0 : nreq s0 = nreq s) by (unfold s0; now rewrite !nreq_logged).
  pose proof (bracket_lookup_snd league_name leagues_url
                (api_headers access_token) s0) as (Hnreq & _ & _).
  pose proof (bracket_lookup_outcome league_name leagues_url
                (api_headers access_token) s0) as Hout.
  destruct (bracket_lookup _ _ _ s0) as [looked_up s1].
  cbn in Hnreq, Hout. rewrite Hs0 in Hnreq.
  destruct Hout as [-> | (league_id & ->)]; cbn; [ discriminate | ].
  destruct (fst (entry_search _ _ _ league_id s1)) as [result | e] eqn:Hsearch;
    [ intros [= ->]
    | destruct (is_Exception e); [ run | ];
      try destruct (log_level _ =? DEBUG); discriminate ].
  apply entry_search_found_inv in Hsearch as (r & s2 & Hnet & Hstatus & Hladder).
  apply search_ladder_found_inv in Hladder
    as (entries & items & s3 & Hentries & Hiter & Hfound).
  apply search_entries_found_inv in Hfound
    as (passed & e & c & rest & -> & Hpassed & Hc & Hname & ->).
  rewrite Hnreq in Hnet.
  exists r, entries, passed, e, c, rest. now repeat split.
Qed.

(** X12: a call of [get_character_rank] returns a result only when its
    ladder request, the second of the call, was answered 200 with entries
    that hold the tracked name; the result is then derived from the first
    entry of that name in listing order.  The tracker never reports a
    character that the ladder does not hold. *)
Theorem found_is_sound league_name character_name access_token s found :
  fst (get_character_rank league_name character_name access_token s)
    = Val (Some found) ->
  exists r entries passed e c rest,
    truthy access_token = true
    /\ net (S (nreq s)) = Answer r
    /\ status_code r = 200
    /\ ladder_entries r = Val entries
    /\ py_iter entries = Val (passed ++ PDict e :: rest)%list
    /\ forallb (entry_passed character_name) passed = true
    /\ get_default e "character" (PDict []) = PDict c
    /\ get_default c "name" (PStr "") = PStr character_name
    /\ found = found_from e c.
Proof. apply get_character_rank_found_inv. Qed.

(** X13: the status of every result a call returns is none, DEAD or
    RETIRED, so the line the writer makes of it has one of its two
    shapes, the second with [[DEAD]] or [[RETIRED]]. *)
Theorem found_status league_name character_name access_token s found :
  fst (get_character_rank league_name character_name access_token s)
    = Val (Some found) ->
  status found = None /\ (forall ladder_name,
      format_content found ladder_name
      = "Level: " ++ py_str (level found) ++ " | Rank: "
          ++ py_str (rank found) ++ " | " ++ ladder_name)
  \/ (status found = Some "DEAD" \/ status found = Some "RETIRED")
     /\ (forall ladder_name,
           format_content found ladder_name
           = "Level: " ++ py_str (level found) ++ " | Rank: ["
               ++ py_str (of_option (status found)) ++ "] "
               ++ py_str (rank found) ++ " | " ++ ladder_name).
Proof.
  intros Hfound.
  apply get_character_rank_found_inv in Hfound
    as (r & entries & passed & e & c & rest & _ & _ & _ & _ & _ & _ & _ & _
        & ->).
  unfold found_from, format_content, status_truthy. cbn.
  destruct (truthy (get_default c "dead" (PBool false)));
    [ right; split; [ now left | reflexivity ] | ].
  destruct (truthy (get_default c "retired" (PBool false)));
    [ right; split; [ now right | reflexivity ] | ].
  left. now split.
Qed.

(** ** The cycles of the loop *)

Lemma nreq_requests s : nreq s = List.length (requests s).
Proof.
  unfold nreq, count_events, requests.
  induction (trace s) as [ | e l IH ]; [ reflexivity | ].
  cbn. destruct (is_request e); cbn; now rewrite IH.
Qed.

Lemma count_events_push p e s :
  count_events p (push e s)
  = if p e then S (count_events p s) else count_events p s.
Proof. unfold count_events, push. cbn. now destruct (p e). Qed.

Lemma count_events_logged p lvl m s :
  p (EvLog lvl m) = false ->
  count_events p (logged lvl m s) = count_events p s.
Proof.
  intros Hp. unfold logged. destruct (log_level s <=? lvl); [ | reflexivity ].
  now rewrite count_events_push, Hp.
Qed.

(** A call of [get_character_rank] adds no event of a kind that holds no
    log record, request, traceback or opening of the debug dump. *)
Lemma get_character_rank_same_count p league_name character_name
    access_token :
  (forall lvl m, p (EvLog lvl m) = false) ->
  (forall rq, p (EvRequest rq) = false) ->
  p EvTraceback = false ->
  p (EvOpen "ladder_debug.json") = false ->
  preserves (same_count p)
    (get_character_rank league_name character_name access_token).
Proof.
  intros Hlog Hrequest Htraceback Hdump.
  apply get_character_rank_preserves; unfold same_count.
  - reflexivity.
  - intros s1 s2 s3. congruence.
  - intros lvl m s. now apply count_events_logged.
  - intros rq s. now rewrite count_events_push, Hrequest.
  - intros s. now rewrite count_events_push, Htraceback.
  - intros content s _. now rewrite !count_events_push, Hdump.
Qed.

Lemma get_character_rank_nreq league_name character_name access_token s :
  truthy access_token = true ->
  let s' := snd (get_character_rank league_name character_name access_token
                   s) in
  nreq s' = S (nreq s) \/ nreq s' = S (S (nreq s)).
Proof.
  intros Htoken s'. unfold s'. rewrite !nreq_requests.
  pose proof (get_character_rank_by_outcome league_name character_name
                access_token s) as Hcall.
  destruct (bracket_lookup_outcome league_name leagues_url
              (api_headers access_token)
              (logged DEBUG (MsgFetchingLeagues leagues_url)
                 (logged INFO (MsgCheckingLadder league_name) s)))
    as [Hout | (league_id & Hout)].
  - left. destruct (Hcall _ Htoken Hout) as [_ Hsent]. now rewrite Hsent.
  - specialize (Hcall _ Htoken Hout).
    destruct league_id; cbv beta iota zeta in Hcall;
      try (right; now rewrite Hcall); left; now rewrite (proj2 Hcall).
Qed.

Lemma write_output_same_count p output_file character_data ladder_name :
  (forall lvl m, p (EvLog lvl m) = false) ->
  p (EvOpen output_file) = false ->
  preserves (same_count p)
    (write_output output_file character_data ladder_name).
Proof.
  intros Hlog Hopen.
  apply write_output_preserves; unfold same_count.
  - intros s1 s2 s3. congruence.
  - intros lvl m s. now apply count_events_logged.
  - intros content s. now rewrite !count_events_push, Hopen.
Qed.

(** The writer opens the output file once, whether the opening succeeds
    or not. *)
Lemma write_output_opens_once output_file character_data ladder_name s :
  nwrites output_file
    (snd (write_output output_file character_data ladder_name s))
  = S (nwrites output_file s).
Proof.
  unfold nwrites, write_output, write_file. run.
  assert (Hopen : opens_of output_file (EvOpen output_file) = true)
    by apply String.eqb_refl.
  destruct character_data; cbn; destruct (io_ok (nopen s)); cbn;
    rewrite count_events_logged, count_events_push, Hopen by reflexivity;
    reflexivity.
Qed.

Lemma write_output_silent output_file character_data ladder_name :
  sends [] (write_output output_file character_data ladder_name).
Proof. unfold write_output. sends. Qed.

Lemma opens_of_other path other :
  other <> path -> opens_of path (EvOpen other) = false.
Proof. intros Hne. cbn. now apply String.eqb_neq. Qed.

(** ** The rate-limited cycle *)

Lemma nsleep_stored path content s : nsleep (stored path content s) = nsleep s.
Proof. reflexivity. Qed.

(** [time.sleep] sleeps for a length within its bounds that the system
    does not refuse. *)
Lemma sleep_runs update_interval_ms s :
  0 <= update_interval_ms < sleep_limit ->
  sleep_ok (nsleep s) = true ->
  sleep update_interval_ms s = (Val tt, push (EvSleep update_interval_ms) s).
Proof.
  intros [Hlow Hhigh] Hok. unfold sleep.
  rewrite Z.abs_eq by exact Hlow.
  apply Z.leb_gt in Hhigh. rewrite Hhigh.
  apply Z.ltb_ge in Hlow. rewrite Hlow.
  now rewrite Hok.
Qed.

(** C7: when the ladder request of a cycle, its second request, is
    answered with 429, the entry search logs the warning with the
    advertised delay and returns [None]; the cycle leaves the output file
    empty, when it can open it, and its last act is the sleep of the
    configured interval, whatever delay the response advertised.  The
    interval is one that [time.sleep] takes: not negative, below
    [sleep_limit], and not refused by the system. *)
Theorem rate_limited_cycle league_name character_name access_token
    output_file update_interval_ms s r :
  net (S (nreq s)) = Answer r ->
  status_code r = 429 ->
  io_ok (nopen s) = true ->
  0 <= update_interval_ms < sleep_limit ->
  sleep_ok (nsleep s) = true ->
  (forall hdrs league_id s0,
      net (nreq s0) = Answer r ->
      entry_search league_name character_name hdrs (PStr league_id) s0
        = (Val None,
           logged WARNING (MsgRateLimited (retry_after r))
             (rate_limit_state_logged r
                (push (EvRequest (GET (ladder_url (quote_str league_id))
                                    hdrs))
                   (logged DEBUG
                      (MsgFetchingLadder (ladder_url (quote_str league_id)))
                      s0)))))
  /\ fst (get_character_rank league_name character_name access_token s)
     = Val None
  /\ exists s',
      cycle league_name character_name access_token output_file
        update_interval_ms s
        = (Val tt, push (EvSleep update_interval_ms) s')
      /\ fs s' !! output_file = Some "".
Proof.
  intros Hnet Hstatus Hio Hinterval Hsleep.
  assert (Hfail : ladder_failure character_name r) by now apply RateLimited.
  split; [ | split ].
  - intros hdrs league_id s0 Hnet0. now apply entry_search_429.
  - now apply get_character_rank_none with r.
  - pose proof (get_character_rank_none league_name character_name
                  access_token s r Hnet Hfail) as Hnone.
    pose proof (get_character_rank_429_nopen league_name character_name
                  access_token s r Hnet Hstatus) as Hnopen.
    pose proof (get_character_rank_same_count is_sleep league_name
                  character_name access_token
                  ltac:(reflexivity) ltac:(reflexivity) eq_refl eq_refl s)
      as Hsleeps.
    unfold cycle, bind at 1.
    destruct (get_character_rank league_name character_name access_token s)
      as [found s1].
    cbn in Hnone, Hnopen, Hsleeps. subst found.
    unfold bind at 1. rewrite write_output_none by now rewrite Hnopen.
    unfold bind, log. rewrite sleep_runs.
    + eexists. split; [ reflexivity | ].
      rewrite fs_logged. apply written_file.
    + exact Hinterval.
    + rewrite !nsleep_logged, nsleep_push, nsleep_stored. cbn.
      unfold same_count in Hsleeps. unfold nsleep. now rewrite Hsleeps.
Qed.

(** One turn of the loop, when [time.sleep] takes the interval. *)
Lemma cycle_runs league_name character_name access_token output_file
    update_interval_ms s :
  truthy access_token = true ->
  0 <= update_interval_ms < sleep_limit ->
  sleep_ok (nsleep s) = true ->
  output_file <> "ladder_debug.json" ->
  exists s',
    cycle league_name character_name access_token output_file
      update_interval_ms s = (Val tt, s')
    /\ nsleep s' = S (nsleep s)
    /\ nwrites output_file s' = S (nwrites output_file s)
    /\ (nreq s' = S (nreq s) \/ nreq s' = S (S (nreq s))).
Proof.
  intros Htoken Hinterval Hsleep Hother. unfold cycle.
  destruct (never_raises_returns
              (get_character_rank league_name character_name access_token) s
              (get_character_rank_never_raises _ _ _))
    as [result Hresult].
  pose proof (get_character_rank_same_count is_sleep league_name
                character_name access_token
                ltac:(reflexivity) ltac:(reflexivity) eq_refl eq_refl s)
    as Hsleeps.
  pose proof (get_character_rank_same_count (opens_of output_file)
                league_name character_name access_token
                ltac:(reflexivity) ltac:(reflexivity) eq_refl
                (opens_of_other _ _ (not_eq_sym Hother)) s)
    as Hwrites.
  pose proof (get_character_rank_nreq league_name character_name
                access_token s Htoken) as Hrequests.
  unfold bind at 1.
  destruct (get_character_rank league_name character_name access_token s)
    as [got s1].
  cbn in Hresult, Hsleeps, Hwrites, Hrequests |- *. subst got.
  destruct (never_raises_returns
              (write_output output_file result league_name) s1
              (write_output_never_raises _ _ _)) as [[] Hwritten].
  pose proof (write_output_same_count is_sleep output_file result league_name
                ltac:(reflexivity) eq_refl s1) as Hsleeps'.
  pose proof (write_output_opens_once output_file result league_name s1)
    as Hwrites'.
  pose proof (write_output_silent output_file result league_name s1)
    as Hrequests'.
  unfold bind at 1.
  destruct (write_output output_file result league_name s1) as [done s2].
  cbn in Hwritten, Hsleeps', Hwrites', Hrequests' |- *. subst done.
  unfold same_count in *. fold (nsleep s) (nsleep s1) (nsleep s2) in *.
  unfold bind, log. rewrite sleep_runs;
    [ | exact Hinterval | rewrite nsleep_logged; congruence ].
  eexists. split; [ reflexivity | ].
  unfold nwrites in *. rewrite nsleep_push, !count_events_push. cbn.
  rewrite nsleep_logged, !count_events_logged by reflexivity.
  rewrite nreq_push, nreq_logged. cbn.
  rewrite !nreq_requests in *. rewrite Hrequests'.
  split; [ congruence | split; [ congruence | exact Hrequests ] ].
Qed.

(** X14: with a token and an interval that [time.sleep] takes (not
    negative, below [sleep_limit], never refused by the system), the loop
    goes on until the operator's interrupt; each of its cycles sleeps
    once, opens the output file once and sends one or two requests. *)
Theorem poll_loop_cycles fuel league_name character_name access_token
    output_file update_interval_ms s :
  truthy access_token = true ->
  0 <= update_interval_ms < sleep_limit ->
  (forall n, sleep_ok n = true) ->
  output_file <> "ladder_debug.json" ->
  exists s',
    poll_loop fuel league_name character_name access_token output_file
      update_interval_ms s = (Exc KeyboardInterrupt, s')
    /\ nsleep s' = (fuel + nsleep s)%nat
    /\ nwrites output_file s' = (fuel + nwrites output_file s)%nat
    /\ (fuel + nreq s <= nreq s')%nat
    /\ (nreq s' <= 2 * fuel + nreq s)%nat.
Proof.
  intros Htoken Hinterval Hsleep Hother. revert s.
  induction fuel as [ | fuel IH ]; intros s; cbn [poll_loop].
  - exists s. repeat split; cbn; lia.
  - destruct (cycle_runs league_name character_name access_token output_file
                update_interval_ms s Htoken Hinterval (Hsleep _) Hother)
      as (s1 & Hcycle & Hslept & Hwrite & Hrequests).
    destruct (IH s1) as (s' & Hloop & Hsleeps & Hwrites & Hlow & Hhigh).
    exists s'. unfold bind. rewrite Hcycle.
    split; [ exact Hloop | ]. lia.
Qed.

(** One turn of the loop when the interval is outside the bounds of
    [time.sleep]: the call raises once the result is written. *)
Lemma cycle_refused league_name character_name access_token output_file
    update_interval_ms s :
  update_interval_ms < 0 \/ sleep_limit <= update_interval_ms ->
  exists s',
    cycle league_name character_name access_token output_file
      update_interval_ms s
    = (Exc (if sleep_limit <=? Z.abs update_interval_ms then OverflowError
            else ValueError), s')
    /\ nsleep s' = nsleep s
    /\ (output_file <> "ladder_debug.json" ->
        nwrites output_file s' = S (nwrites output_file s)).
Proof.
  intros Hinterval. unfold cycle.
  destruct (never_raises_returns
              (get_character_rank league_name character_name access_token) s
              (get_character_rank_never_raises _ _ _))
    as [result Hresult].
  pose proof (get_character_rank_same_count is_sleep league_name
                character_name access_token
                ltac:(reflexivity) ltac:(reflexivity) eq_refl eq_refl s)
    as Hsleeps.
  pose proof (fun Hother : output_file <> "ladder_debug.json" =>
                get_character_rank_same_count (opens_of output_file)
                  league_name character_name access_token
                  ltac:(reflexivity) ltac:(reflexivity) eq_refl
                  (opens_of_other _ _ (not_eq_sym Hother)) s)
    as Hwrites.
  unfold bind at 1.
  destruct (get_character_rank league_name character_name access_token s)
    as [got s1].
  cbn in Hresult, Hsleeps, Hwrites |- *. subst got.
  destruct (never_raises_returns
              (write_output output_file result league_name) s1
              (write_output_never_raises _ _ _)) as [[] Hwritten].
  pose proof (write_output_same_count is_sleep output_file result league_name
                ltac:(reflexivity) eq_refl s1) as Hsleeps'.
  pose proof (write_output_opens_once output_file result league_name s1)
    as Hwrites'.
  unfold bind at 1.
  destruct (write_output output_file result league_name s1) as [done s2].
  cbn in Hwritten, Hsleeps', Hwrites' |- *. subst done.
  assert (Hraised :
            forall s0,
              sleep update_interval_ms s0
              = (Exc (if sleep_limit <=? Z.abs update_interval_ms
                      then OverflowError else ValueError), s0)).
  { intros s0. unfold sleep, raise.
    destruct (sleep_limit <=? Z.abs update_interval_ms) eqn:Hlimit;
      [ reflexivity | ].
    apply Z.leb_gt in Hlimit.
    assert (Hnegative : update_interval_ms < 0) by lia.
    apply Z.ltb_lt in Hnegative. now rewrite Hnegative. }
  unfold bind, log. rewrite Hraised.
  eexists. split; [ reflexivity | ].
  unfold same_count in *. unfold nsleep, nwrites in *.
  rewrite !count_events_logged by reflexivity.
  split; [ congruence | ].
  intros Hother. specialize (Hwrites Hother). congruence.
Qed.

(** X15: an interval outside the bounds of [time.sleep], negative or not
    below [sleep_limit], ends the loop in its first cycle: the call raises
    [OverflowError] when the length does not fit the clock and
    [ValueError] otherwise; the output file has been opened once and the
    process has not slept. *)
Theorem poll_loop_refused_interval fuel league_name character_name
    access_token output_file update_interval_ms s :
  update_interval_ms < 0 \/ sleep_limit <= update_interval_ms ->
  output_file <> "ladder_debug.json" ->
  exists s',
    poll_loop (S fuel) league_name character_name access_token output_file
      update_interval_ms s
    = (Exc (if sleep_limit <=? Z.abs update_interval_ms then OverflowError
            else ValueError), s')
    /\ nsleep s' = nsleep s
    /\ nwrites output_file s' = S (nwrites output_file s).
Proof.
  intros Hinterval Hother.
  destruct (cycle_refused league_name character_name access_token
              output_file update_interval_ms s Hinterval)
    as (s' & Hcycle & Hsleeps & Hwrites).
  exists s'. cbn [poll_loop]. unfold bind. rewrite Hcycle. auto.
Qed.

Lemma bind_ext {A B} (c : M A) (k k' : A -> M B) s :
  (forall a s', k a s' = k' a s') -> bind c k s = bind c k' s.
Proof.
  intros Hk. unfold bind. destruct (c s) as [[a | e] s']; [ apply Hk | ].
  reflexivity.
Qed.

(** X16: with a negative interval a run is the same however long the
    operator waits before the interrupt: it is the run of one cycle. *)
Theorem main_negative_interval_one_cycle a fuel s :
  update a < 0 -> main a (S fuel) s = main a 1 s.
Proof.
  intros Hinterval. unfold main.
  apply bind_ext. intros _ s1. apply bind_ext. intros _ s2.
  apply bind_ext. intros token s3.
  destruct (negb (truthy token)); [ reflexivity | ].
  apply bind_ext. intros _ s4.
  apply bind_ext. intros _ s5. apply bind_ext. intros _ s6.
  apply bind_ext. intros _ s7.
  destruct (cycle_refused (get_league_name (gamemode a) (doth a))
              (character_name a) token (output a) (update a) s7
              (or_introl Hinterval)) as (s8 & Hcycle & _).
  assert (Hloop :
            forall n,
              poll_loop (S n) (get_league_name (gamemode a) (doth a))
                (character_name a) token (output a) (update a) s7
              = (Exc (if sleep_limit <=? Z.abs (update a) then OverflowError
                      else ValueError), s8)).
  { intros n. cbn [poll_loop]. unfold bind. now rewrite Hcycle. }
  unfold try_except. now rewrite !Hloop.
Qed.

(** ** The files of a run *)

Lemma fs_configured debug s : fs (configured debug s) = fs s.
Proof. unfold configured. now destruct (log_configured s). Qed.

Lemma same_files_stored touched path content s :
  In path touched -> same_files touched s (stored path content s).
Proof.
  intros Hin other Hother. rewrite fs_stored.
  apply lookup_insert_ne. intros ->. now apply Hother.
Qed.

(** X17: a run changes no file other than the output file and
    [ladder_debug.json]. *)
Theorem main_files a fuel s path :
  path <> output a ->
  path <> "ladder_debug.json" ->
  fs (snd (main a fuel s)) !! path = fs s !! path.
Proof.
  intros Houtput Hdump.
  assert (Hrun : preserves (same_files [output a; "ladder_debug.json"])
                   (main a fuel)).
  { apply main_preserves with (output_file := output a);
      unfold same_files; try (intros; reflexivity).
    - intros s1 s2 s3 H12 H23 other Hother.
      now rewrite H23, H12 by assumption.
    - intros lvl m s0 other _. now rewrite fs_logged.
    - intros content s0 _. split; [ | now intros other _ ].
      intros other Hother. rewrite fs_push.
      apply same_files_stored
        with (touched := [output a; "ladder_debug.json"]);
        [ now right; left | exact Hother ].
    - intros content s0. split; [ | now intros other _ ].
      intros other Hother. rewrite fs_push.
      apply same_files_stored
        with (touched := [output a; "ladder_debug.json"]);
        [ now left | exact Hother ].
    - intros s0 other _. now rewrite fs_configured. }
  apply Hrun. cbn. intros [H | [H | []]]; congruence.
Qed.

Lemma log_level_configured debug s :
  log_level s <> DEBUG ->
  log_level (configured debug s) = DEBUG ->
  debug = true.
Proof.
  unfold configured. destruct (log_configured s); [ congruence | ].
  now destruct debug.
Qed.

(** X18: without [--debug], from a logger that is not at the debug level,
    a run changes no file other than the output file. *)
Theorem main_files_without_debug a fuel s path :
  debug a = false ->
  log_level s <> DEBUG ->
  path <> output a ->
  fs (snd (main a fuel s)) !! path = fs s !! path.
Proof.
  intros Hdebug Hlevel Houtput.
  assert (Hrun : preserves (no_dump (output a)) (main a fuel)).
  { apply main_preserves with (output_file := output a); try reflexivity;
      unfold no_dump.
    - intros s0 H0. split; [ exact H0 | now intros other _ ].
    - intros s1 s2 s3 H12 H23 H1.
      destruct (H12 H1) as [H2 Hfiles12].
      destruct (H23 H2) as [H3 Hfiles23].
      split; [ exact H3 | ].
      intros other Hother. now rewrite Hfiles23, Hfiles12 by assumption.
    - intros lvl m s0 H0. rewrite log_level_logged.
      split; [ exact H0 | ]. intros other _. now rewrite fs_logged.
    - intros rq s0 H0. split; [ exact H0 | now intros other _ ].
    - intros s0 H0. split; [ exact H0 | now intros other _ ].
    - intros content s0 Hat. split; intros H0; now destruct H0.
    - intros ms s0 H0. split; [ exact H0 | now intros other _ ].
    - intros content s0.
      split; intros H0; (split; [ exact H0 | ]); [ | now intros other _ ].
      intros other Hother. rewrite fs_push.
      now apply same_files_stored with (touched := [output a]);
        [ left | ].
    - intros line s0 H0. split; [ exact H0 | now intros other _ ].
    - intros s0 H0. split.
      + intros Hat. apply log_level_configured in Hat; congruence.
      + intros other _. now rewrite fs_configured. }
  destruct (Hrun s Hlevel) as [_ Hfiles]. apply Hfiles.
  cbn. intros [H | []]. congruence.
Qed.

(** ** The bracket names *)

(** X19: over the game modes that the command line accepts, the ladder
    name tells the game mode and the league option: no two of the eight
    combinations share a name, and none is named Unknown. *)
Theorem get_league_name_injective gamemode1 use_doth1 gamemode2 use_doth2 :
  In gamemode1 gamemodes ->
  In gamemode2 gamemodes ->
  get_league_name gamemode1 use_doth1 <> "Unknown"
  /\ (get_league_name gamemode1 use_doth1
      = get_league_name gamemode2 use_doth2 ->
      gamemode1 = gamemode2 /\ use_doth1 = use_doth2).
Proof.
  unfold gamemodes. cbn [In].
  intros [<- | [<- | [<- | [<- | []]]]] [<- | [<- | [<- | [<- | []]]]];
    destruct use_doth1, use_doth2; cbn;
    (split; [ discriminate | intros H; first [ discriminate H | now split ] ]).
Qed.

(** ** The debug dump *)

Lemma search_entries_fs character_name entries s :
  fs (snd (search_entries character_name entries s)) = fs s.
Proof.
  apply (search_entries_preserves (fun s s' => fs s' = fs s)).
  - reflexivity.
  - intros s1 s2 s3. congruence.
  - intros lvl m s0. apply fs_logged.
Qed.

(** Lines 195-202 at the debug level: the parsed ladder is dumped before
    anything is read from it, and a dump that cannot be opened ends the
    block. *)
Lemma search_ladder_dump character_name r s ladder_data :
  response_json r = Val ladder_data ->
  log_level s = DEBUG ->
  if io_ok (nopen s) then
    fs (snd (search_ladder character_name r s))
    = <["ladder_debug.json" := json_dumps ladder_data]> (fs s)
  else
    fst (search_ladder character_name r s) = Exc OSError
    /\ fs (snd (search_ladder character_name r s)) = fs s.
Proof.
  intros Hjson Hlevel. unfold search_ladder, write_file. run.
  rewrite Hjson. cbn. rewrite Hlevel. cbn.
  destruct (io_ok (nopen s)); cbn; [ | now split ].
  set (s1 := logged DEBUG MsgSavedDump _).
  assert (Hfs : fs s1 = <["ladder_debug.json" := json_dumps ladder_data]>
                          (fs s)).
  { unfold s1. now rewrite fs_logged, fs_push, fs_stored. }
  destruct (dict_get ladder_data "ladder" (PDict [])) as [ladder_obj | x];
    cbn; [ | destruct (is_ValueError x); cbn; now rewrite ?fs_logged ].
  destruct (dict_get ladder_obj "entries" (PList [])) as [entries | x];
    cbn; [ | destruct (is_ValueError x); cbn; now rewrite ?fs_logged ].
  destruct (truthy entries); cbn; [ | now rewrite fs_logged ].
  destruct (py_iter entries) as [items | x];
    cbn; [ | destruct (is_ValueError x); cbn; now rewrite ?fs_logged ].
  pose proof (search_entries_fs character_name items s1) as Hscan.
  destruct (search_entries character_name items s1) as [[found | x] s2];
    cbn in Hscan |- *; [ congruence | ].
  destruct (is_ValueError x); cbn; rewrite ?fs_logged; congruence.
Qed.

(** X20: at the debug level, a ladder response of status 200 that parses
    is saved to [ladder_debug.json] as it came; when that file cannot be
    opened, the search ends with the [OSError] and no file is changed. *)
Theorem debug_dump league_name character_name hdrs league_id s r
    ladder_data :
  net (nreq s) = Answer r ->
  status_code r = 200 ->
  response_json r = Val ladder_data ->
  log_level s = DEBUG ->
  let call :=
    entry_search league_name character_name hdrs (PStr league_id) s in
  if io_ok (nopen s) then
    fs (snd call)
    = <["ladder_debug.json" := json_dumps ladder_data]> (fs s)
  else fst call = Exc OSError /\ fs (snd call) = fs s.
Proof.
  intros Hnet Hstatus Hjson Hlevel call.
  assert (Hafter :
            forall rq (s0 : state),
              (s0 = push (EvRequest rq) (logged DEBUG
                      (MsgFetchingLadder (ladder_url (quote_str league_id)))
                      s)
               \/ exists v,
                   s0 = logged DEBUG (MsgRateLimitState v)
                          (push (EvRequest rq) (logged DEBUG
                             (MsgFetchingLadder
                                (ladder_url (quote_str league_id))) s))) ->
              log_level s0 = DEBUG /\ nopen s0 = nopen s /\ fs s0 = fs s).
  { intros rq s0 [-> | [v ->]];
      rewrite ?log_level_logged, ?nopen_logged, ?fs_logged,
        log_level_push, nopen_push, fs_push,
        log_level_logged, nopen_logged, fs_logged; auto. }
  unfold call, entry_search, quote, send. run.
  rewrite nreq_logged, Hnet. cbn.
  destruct (header_get "X-Rate-Limit-Client-State" (headers r)); cbn;
    rewrite Hstatus; cbn;
    match goal with
    | |- context [search_ladder character_name r ?s0] =>
        pose proof (search_ladder_dump character_name r s0 ladder_data Hjson)
          as Hdump;
        destruct (Hafter (GET (ladder_url (quote_str league_id)) hdrs) s0)
          as (Hlevel0 & Hopen0 & Hfs0); [ eauto | ];
        specialize (Hdump Hlevel0); rewrite Hopen0, Hfs0 in Hdump;
        exact Hdump
    end.
Qed.

End Tracker.

Arguments pyval : clear implicits.
Arguments response : clear implicits.
Arguments request : clear implicits.
Arguments net_result : clear implicits.
Arguments logmsg : clear implicits.
Arguments event : clear implicits.
Arguments state : clear implicits.
Arguments character_data : clear implicits.
Arguments M : clear implicits.

(** * The program in the sample worlds

    The statements above, applied in worlds without floats where every file
    can be opened and no sleep is refused. *)

Local Abbreviation containers := (fun _ : @pyval Empty_set => "[...]")
  (only parsing).
Local Abbreviation dumps := (fun _ : @pyval Empty_set => "{...}")
  (only parsing).
Local Abbreviation writable := (fun _ : nat => true) (only parsing).
Local Abbreviation rested := (fun _ : nat => true) (only parsing).
Local Abbreviation token_in answers :=
  (get_oauth_token no_float_truthy (answers_in_order answers))
  (only parsing).
Local Abbreviation lookup_in answers :=
  (bracket_lookup no_float_truthy (answers_in_order answers)) (only parsing).
Local Abbreviation search_in answers :=
  (entry_search no_float_truthy dumps (answers_in_order answers) writable)
  (only parsing).
Local Abbreviation rank_in answers :=
  (get_character_rank no_float_truthy no_float_str containers dumps
     (answers_in_order answers) writable) (only parsing).
Local Abbreviation write_in :=
  (write_output no_float_truthy no_float_str containers writable)
  (only parsing).
Local Abbreviation search_then_write answers league_name character_name
    access_token output_file :=
  (bind (rank_in answers league_name character_name access_token)
     (fun character_data => write_in output_file character_data league_name))
  (only parsing).
Local Abbreviation cycle_in answers :=
  (cycle no_float_truthy no_float_str containers dumps
     (answers_in_order answers) writable rested) (only parsing).
Local Abbreviation main_in answers :=
  (main no_float_truthy no_float_str containers dumps
     (answers_in_order answers) writable rested) (only parsing).

(** ** The bracket resolver *)

Lemma get_league_name_unknown_witness :
  get_league_name "ruthless" true = "Unknown"
  /\ get_league_name "" false = "Unknown".
Proof.
  split; apply get_league_name_unknown; discriminate.
Defined.

(** ** The token acquirer *)

Lemma get_oauth_token_missing_credentials_witness :
  token_in [Answer (body 200 sample_token)] None (Some "secret")
    fresh_process
  = (Val PNone,
     {| fs := ∅; log_level := WARNING; log_configured := false;
        trace := [EvLog ERROR MsgCredentialsRequired] |})
  /\ token_in [Answer (body 200 sample_token)] (Some "id") (Some "")
       fresh_process
     = (Val PNone,
        {| fs := ∅; log_level := WARNING; log_configured := false;
           trace := [EvLog ERROR MsgCredentialsRequired] |}).
Proof.
  split.
  - apply (get_oauth_token_missing_credentials no_float_truthy
             (answers_in_order [Answer (body 200 sample_token)])
             None (Some "secret") fresh_process).
    left. left. reflexivity.
  - apply (get_oauth_token_missing_credentials no_float_truthy
             (answers_in_order [Answer (body 200 sample_token)])
             (Some "id") (Some "") fresh_process).
    right. right. reflexivity.
Defined.

Lemma main_empty_token_fatal_witness :
  main_in [Answer (body 200 empty_token); Answer (body 200 sample_leagues);
           Answer (body 200 sample_ladder)]
    sample_args 3 fresh_process
  = (Val tt,
     {| fs := ∅; log_level := INFO; log_configured := true;
        trace :=
          [EvLog ERROR MsgRunWithCredentials;
           EvLog ERROR MsgVisitDocs;
           EvLog ERROR MsgCouldNotObtainToken;
           EvRequest
             (POST token_url
                [("Content-Type", "application/x-www-form-urlencoded");
                 ("User-Agent", user_agent)]
                [("client_id", PStr "id"); ("client_secret", PStr "secret");
                 ("grant_type", PStr "client_credentials");
                 ("scope", PStr "service:leagues service:leagues:ladder")]);
           EvPrint disclaimer] |}).
Proof.
  apply (main_empty_token_fatal no_float_truthy no_float_str containers dumps
           (answers_in_order [Answer (body 200 empty_token);
                              Answer (body 200 sample_leagues);
                              Answer (body 200 sample_ladder)])
           writable rested sample_args 3 fresh_process (body 200 empty_token)
           [("access_token", PStr ""); ("token_type", PStr "bearer")]).
  - exists "id". split; [ reflexivity | discriminate ].
  - exists "secret". split; [ reflexivity | discriminate ].
  - reflexivity.
  - reflexivity.
  - reflexivity.
  - left. reflexivity.
Defined.

(** ** The output writer *)

Lemma write_output_format_witness :
  fs (snd (write_in "poe2_rank.txt"
             (Some {| level := PInt 100; rank := PStr "Unknown";
                      status := Some "RETIRED" |})
             "Hardcore SSF" polling)) !! "poe2_rank.txt"
  = Some "Level: 100 | Rank: [RETIRED] Unknown | Hardcore SSF"
  /\ fs (snd (write_in "poe2_rank.txt"
                (Some {| level := PInt 92; rank := PInt 5; status := None |})
                "Standard" polling)) !! "poe2_rank.txt"
     = Some "Level: 92 | Rank: 5 | Standard".
Proof.
  split.
  - apply (proj1 (write_output_format no_float_truthy no_float_str containers
                    writable)
             "poe2_rank.txt"
             {| level := PInt 100; rank := PStr "Unknown";
                status := Some "RETIRED" |}
             "Hardcore SSF" polling);
      [ reflexivity | discriminate ].
  - apply (proj1 (proj2 (write_output_format no_float_truthy no_float_str
                           containers writable))
             "poe2_rank.txt" polling).
    reflexivity.
Defined.

(** ** The bracket lookup *)

Lemma bracket_lookup_fallback_witness :
  requests (snd (rank_in [NetworkFault; Answer (body 200 sample_ladder)]
                   "Hardcore SSF" "Hero" (PStr "secret-token") polling))
  = [EvRequest (GET (ladder_url "Hardcore%20SSF") sample_headers);
     EvRequest (GET leagues_url sample_headers)]
  /\ requests
       (snd (rank_in [Answer (not_json 200 "<html>maintenance</html>");
                      Answer (body 200 sample_ladder)]
               "Standard" "Hero" (PStr "secret-token") polling))
     = [EvRequest (GET (ladder_url "Standard") sample_headers);
        EvRequest (GET leagues_url sample_headers)]
  /\ (fst (rank_in [Answer (body 503 PNone);
                    Answer (body 200 sample_ladder)]
             "Standard" "Hero" (PStr "secret-token") polling) = Val None
      /\ requests (snd (rank_in [Answer (body 503 PNone);
                                 Answer (body 200 sample_ladder)]
                          "Standard" "Hero" (PStr "secret-token") polling))
         = [EvRequest (GET leagues_url sample_headers)])
  /\ (fst (rank_in [Answer (body 200 other_leagues);
                    Answer (body 200 sample_ladder)]
             "Standard" "Hero" (PStr "secret-token") polling) = Val None
      /\ requests (snd (rank_in [Answer (body 200 other_leagues);
                                 Answer (body 200 sample_ladder)]
                          "Standard" "Hero" (PStr "secret-token") polling))
         = [EvRequest (GET leagues_url sample_headers)]).
Proof.
  split; [ | split; [ | split ] ].
  - apply (proj2 (bracket_lookup_fallback no_float_truthy no_float_str
                    containers dumps
                    (answers_in_order
                       [NetworkFault; Answer (body 200 sample_ladder)])
                    writable "Hardcore SSF" "Hero" (PStr "secret-token")
                    polling (Continue (PStr "Hardcore SSF"))
                    (listing_fault _ "Hardcore SSF") eq_refl)
             "Hardcore%20SSF").
    reflexivity.
  - apply (proj2 (bracket_lookup_fallback no_float_truthy no_float_str
                    containers dumps
                    (answers_in_order
                       [Answer (not_json 200 "<html>maintenance</html>");
                        Answer (body 200 sample_ladder)])
                    writable "Standard" "Hero" (PStr "secret-token")
                    polling (Continue (PStr "Standard"))
                    (listing_bad_shape _ "Standard"
                       (not_json 200 "<html>maintenance</html>")
                       ValueError eq_refl eq_refl)
                    eq_refl)
             "Standard").
    reflexivity.
  - apply (proj2 (bracket_lookup_fallback no_float_truthy no_float_str
                    containers dumps
                    (answers_in_order
                       [Answer (body 503 PNone);
                        Answer (body 200 sample_ladder)])
                    writable "Standard" "Hero" (PStr "secret-token")
                    polling (Return None)
                    (listing_bad_status _ "Standard" (body 503 PNone)
                       ltac:(discriminate))
                    eq_refl)).
  - apply (proj2 (bracket_lookup_fallback no_float_truthy no_float_str
                    containers dumps
                    (answers_in_order
                       [Answer (body 200 other_leagues);
                        Answer (body 200 sample_ladder)])
                    writable "Standard" "Hero" (PStr "secret-token")
                    polling (Return None)
                    (listing_no_match _ "Standard" (body 200 other_leagues)
                       PNone eq_refl eq_refl eq_refl)
                    eq_refl)).
Defined.

(** C1, as the spec has it, fails: when the listing answers 503, and when
    it answers 200 without a league of that name, the lookup does not go
    on with the display name; the call returns [None] after that one
    request, although the ladder would have held the character. *)
Lemma bracket_lookup_aborts :
  status_code (@not_json Empty_set 503 "Service Unavailable") <> 200
  /\ fst (lookup_in [Answer (not_json 503 "Service Unavailable");
                     Answer (body 200 sample_ladder)]
            "Standard" leagues_url sample_headers polling)
     <> Val (Continue (PStr "Standard"))
  /\ rank_in [Answer (not_json 503 "Service Unavailable");
              Answer (body 200 sample_ladder)]
       "Standard" "Hero" (PStr "secret-token") polling
     = (Val None,
        {| fs := ∅; log_level := INFO; log_configured := true;
           trace := [EvLog ERROR (MsgLeaguesStatus 503);
                     EvRequest (GET leagues_url sample_headers);
                     EvLog INFO (MsgCheckingLadder "Standard")] |})
  /\ listed_id "Standard" (@body Empty_set 200 other_leagues) = Val PNone
  /\ fst (lookup_in [Answer (body 200 other_leagues);
                     Answer (body 200 sample_ladder)]
            "Standard" leagues_url sample_headers polling)
     <> Val (Continue (PStr "Standard"))
  /\ rank_in [Answer (body 200 other_leagues);
              Answer (body 200 sample_ladder)]
       "Standard" "Hero" (PStr "secret-token") polling
     = (Val None,
        {| fs := ∅; log_level := INFO; log_configured := true;
           trace := [EvLog ERROR (MsgLeagueNotActive "Standard");
                     EvRequest (GET leagues_url sample_headers);
                     EvLog INFO (MsgCheckingLadder "Standard")] |}).
Proof.
  split; [ discriminate | ].
  split; [ discriminate | ].
  split; [ reflexivity | ].
  split; [ reflexivity | ].
  split; [ discriminate | reflexivity ].
Qed.

(** ** The entry search *)

Lemma entry_search_match_witness :
  fst (search_in [Answer (body 200 sample_ladder)] "Standard" "Hero"
         sample_headers (PStr "Standard") polling)
  = Val (Some {| level := PInt 92; rank := PInt 5; status := Some "DEAD" |})
  /\ fst (search_in [Answer (body 200 sample_ladder)] "Standard" "Omega"
            sample_headers (PStr "Standard") polling)
     = Val (Some {| level := PInt 91; rank := PInt 6;
                    status := Some "RETIRED" |})
  /\ fst (search_in [Answer (body 200 sample_ladder)] "Standard" "Alpha"
            sample_headers (PStr "Standard") polling)
     = Val (Some {| level := PInt 100; rank := PInt 1; status := None |})
  /\ fst (search_in [Answer (body 200 ghost_ladder)] "Standard" "Ghost"
            sample_headers (PStr "Standard") polling)
     = Val (Some {| level := PStr "Unknown"; rank := PStr "Unknown";
                    status := None |}).
Proof.
  split; [ | split; [ | split ] ].
  - apply (entry_search_match no_float_truthy dumps
             (answers_in_order [Answer (body 200 sample_ladder)]) writable
             "Standard" "Hero" sample_headers "Standard" polling
             (body 200 sample_ladder)
             [entry_of "Alpha" 1 100 []]
             [("rank", PInt 5);
              ("character",
               PDict [("name", PStr "Hero"); ("level", PInt 92);
                      ("dead", PBool true)])]
             [("name", PStr "Hero"); ("level", PInt 92);
              ("dead", PBool true)]
             [entry_of "Omega" 6 91 [("retired", PBool true)]]);
      reflexivity.
  - apply (entry_search_match no_float_truthy dumps
             (answers_in_order [Answer (body 200 sample_ladder)]) writable
             "Standard" "Omega" sample_headers "Standard" polling
             (body 200 sample_ladder)
             [entry_of "Alpha" 1 100 [];
              entry_of "Hero" 5 92 [("dead", PBool true)]]
             [("rank", PInt 6);
              ("character",
               PDict [("name", PStr "Omega"); ("level", PInt 91);
                      ("retired", PBool true)])]
             [("name", PStr "Omega"); ("level", PInt 91);
              ("retired", PBool true)]
             []);
      reflexivity.
  - apply (entry_search_match no_float_truthy dumps
             (answers_in_order [Answer (body 200 sample_ladder)]) writable
             "Standard" "Alpha" sample_headers "Standard" polling
             (body 200 sample_ladder)
             []
             [("rank", PInt 1);
              ("character",
               PDict [("name", PStr "Alpha"); ("level", PInt 100)])]
             [("name", PStr "Alpha"); ("level", PInt 100)]
             [entry_of "Hero" 5 92 [("dead", PBool true)];
              entry_of "Omega" 6 91 [("retired", PBool true)]]);
      reflexivity.
  - apply (entry_search_match no_float_truthy dumps
             (answers_in_order [Answer (body 200 ghost_ladder)]) writable
             "Standard" "Ghost" sample_headers "Standard" polling
             (body 200 ghost_ladder)
             []
             [("character", PDict [("name", PStr "Ghost")])]
             [("name", PStr "Ghost")]
             []);
      reflexivity.
Defined.

(** ** Cycles without a result *)

Lemma not_found_empties_file_witness :
  (fst (rank_in (listing_then (body 200 empty_ladder))
          "Standard" "Hero" (PStr "secret-token") polling) = Val None
   /\ exists s',
       search_then_write (listing_then (body 200 empty_ladder))
         "Standard" "Hero" (PStr "secret-token") "poe2_rank.txt" polling
       = (Val tt, s')
       /\ fs s' !! "poe2_rank.txt" = Some "")
  /\ (fst (rank_in (listing_then (body 200 sample_ladder))
             "Standard" "Nobody" (PStr "secret-token") polling) = Val None
      /\ exists s',
          search_then_write (listing_then (body 200 sample_ladder))
            "Standard" "Nobody" (PStr "secret-token") "poe2_rank.txt" polling
          = (Val tt, s')
          /\ fs s' !! "poe2_rank.txt" = Some "").
Proof.
  split.
  - apply (not_found_empties_file no_float_truthy no_float_str containers
             dumps (answers_in_order (listing_then (body 200 empty_ladder)))
             writable "Standard" "Hero" (PStr "secret-token")
             "poe2_rank.txt" polling (body 200 empty_ladder) (PList []));
      [ reflexivity | reflexivity | reflexivity | left; reflexivity
      | reflexivity ].
  - apply (not_found_empties_file no_float_truthy no_float_str containers
             dumps (answers_in_order (listing_then (body 200 sample_ladder)))
             writable "Standard" "Nobody" (PStr "secret-token")
             "poe2_rank.txt" polling (body 200 sample_ladder)
             (PList sample_entries));
      [ reflexivity | reflexivity | reflexivity
      | right; exists sample_entries; split; reflexivity
      | reflexivity ].
Defined.

Local Abbreviation alike_in answers :=
  (fst (rank_in answers "Standard" "Hero" (PStr "secret-token") polling)
   = Val None
   /\ search_then_write answers "Standard" "Hero" (PStr "secret-token")
        "poe2_rank.txt" polling
      = write_in "poe2_rank.txt" None "Standard"
          (snd (rank_in answers "Standard" "Hero" (PStr "secret-token")
                  polling))
   /\ fs (snd (write_in "poe2_rank.txt" None "Standard"
                 (snd (rank_in answers "Standard" "Hero"
                         (PStr "secret-token") polling))))
      = <[ "poe2_rank.txt" := "" ]>
          (fs (snd (rank_in answers "Standard" "Hero" (PStr "secret-token")
                      polling)))) (only parsing).

Lemma rank_failures_alike_witness :
  alike_in (listing_then rate_limited)
  /\ alike_in [NetworkFault; Answer (not_json 404 "Not Found")]
  /\ alike_in (listing_then (not_json 500 "Internal Server Error"))
  /\ alike_in (listing_then (not_json 200 "<html></html>"))
  /\ alike_in (listing_then (body 200 empty_ladder))
  /\ alike_in (listing_then (body 200 alpha_ladder)).
Proof.
  split; [ | split; [ | split; [ | split; [ | split ] ] ] ].
  - apply (rank_failures_alike no_float_truthy no_float_str containers dumps
             (answers_in_order (listing_then rate_limited))
             writable "Standard" "Hero" (PStr "secret-token")
             "poe2_rank.txt" polling rate_limited);
      [ reflexivity | apply RateLimited; reflexivity | reflexivity ].
  - apply (rank_failures_alike no_float_truthy no_float_str containers dumps
             (answers_in_order
                [NetworkFault; Answer (not_json 404 "Not Found")])
             writable "Standard" "Hero" (PStr "secret-token")
             "poe2_rank.txt" polling (not_json 404 "Not Found"));
      [ reflexivity | apply NotFoundBracket; reflexivity | reflexivity ].
  - apply (rank_failures_alike no_float_truthy no_float_str containers dumps
             (answers_in_order
                (listing_then (not_json 500 "Internal Server Error")))
             writable "Standard" "Hero" (PStr "secret-token")
             "poe2_rank.txt" polling
             (not_json 500 "Internal Server Error"));
      [ reflexivity | apply RequestFailure; discriminate | reflexivity ].
  - apply (rank_failures_alike no_float_truthy no_float_str containers dumps
             (answers_in_order (listing_then (not_json 200 "<html></html>")))
             writable "Standard" "Hero" (PStr "secret-token")
             "poe2_rank.txt" polling (not_json 200 "<html></html>"));
      [ reflexivity | apply MalformedJson; reflexivity | reflexivity ].
  - apply (rank_failures_alike no_float_truthy no_float_str containers dumps
             (answers_in_order (listing_then (body 200 empty_ladder)))
             writable "Standard" "Hero" (PStr "secret-token")
             "poe2_rank.txt" polling (body 200 empty_ladder));
      [ reflexivity
      | apply EmptyListing with (PList []); reflexivity
      | reflexivity ].
  - apply (rank_failures_alike no_float_truthy no_float_str containers dumps
             (answers_in_order (listing_then (body 200 alpha_ladder)))
             writable "Standard" "Hero" (PStr "secret-token")
             "poe2_rank.txt" polling (body 200 alpha_ladder));
      [ reflexivity
      | apply NoMatch with (PList [entry_of "Alpha" 1 100 []])
                           [entry_of "Alpha" 1 100 []];
        reflexivity
      | reflexivity ].
Defined.

(** ** Rate limiting *)

Lemma rate_limited_cycle_witness :
  fst (rank_in (listing_then rate_limited)
         "Standard" "Hero" (PStr "secret-token") polling) = Val None
  /\ exists s',
      cycle_in (listing_then rate_limited)
        "Standard" "Hero" (PStr "secret-token") "poe2_rank.txt" 60000
        polling
      = (Val tt, push (EvSleep 60000) s')
      /\ fs s' !! "poe2_rank.txt" = Some "".
Proof.
  apply (rate_limited_cycle no_float_truthy no_float_str containers dumps
           (answers_in_order (listing_then rate_limited))
           writable rested "Standard" "Hero" (PStr "secret-token") "poe2_rank.txt"
           60000 polling rate_limited);
    [ reflexivity | reflexivity | reflexivity | unfold sleep_limit; lia
    | reflexivity ].
Defined.

(** ** Whole runs *)

(** One cycle that finds the character, then the operator's interrupt. *)
Example main_tracks_character :
  main_in [Answer (body 200 sample_token); Answer (body 200 sample_leagues);
           Answer (body 200 sample_ladder)]
    sample_args 1 fresh_process
  = (Val tt,
     {| fs := {[ "poe2_rank.txt" := "Level: 92 | Rank: [DEAD] 5 | Standard" ]};
        log_level := INFO; log_configured := true;
        trace :=
          [EvLog INFO MsgStopped;
           EvSleep 60000;
           EvLog INFO (MsgWaiting 60000);
           EvLog INFO (MsgUpdated "Level: 92 | Rank: [DEAD] 5 | Standard");
           EvOpen "poe2_rank.txt";
           EvLog INFO (MsgFound "Hero" (PInt 5) (PInt 92) (Some "DEAD"));
           EvRequest (GET (ladder_url "Standard") sample_headers);
           EvRequest (GET leagues_url sample_headers);
           EvLog INFO (MsgCheckingLadder "Standard");
           EvLog INFO (MsgInterval 60000 "poe2_rank.txt");
           EvLog INFO (MsgGameMode "standard" "Standard");
           EvLog INFO (MsgStarting "Hero");
           EvRequest
             (POST token_url
                [("Content-Type", "application/x-www-form-urlencoded");
                 ("User-Agent", user_agent)]
                [("client_id", PStr "id"); ("client_secret", PStr "secret");
                 ("grant_type", PStr "client_credentials");
                 ("scope", PStr "service:leagues service:leagues:ladder")]);
           EvPrint disclaimer] |}).
Proof. vm_compute. reflexivity. Qed.

(** A cycle that finds the character and one that is rate limited: the
    second empties the file again. *)
Example main_rate_limited_after_found :
  fs (snd (main_in [Answer (body 200 sample_token);
                    Answer (body 200 sample_leagues);
                    Answer (body 200 sample_ladder);
                    Answer (body 200 sample_leagues);
                    Answer rate_limited]
             sample_args 2 fresh_process)) !! "poe2_rank.txt"
  = Some "".
Proof. vm_compute. reflexivity. Qed.

(** When the request for the listing raises, the ladder is asked for under
    the percent-encoded display name. *)
Example fallback_asks_for_quoted_name :
  ladder_url (quote_str "HC SSF Dawn of the Hunt")
  = "https://api.pathofexile.com/league/HC%20SSF%20Dawn%20of%20the%20Hunt/ladder?realm=poe2&limit=200"
  /\ trace (snd (rank_in [NetworkFault; Answer rate_limited]
                   "HC SSF Dawn of the Hunt" "Hero" (PStr "secret-token")
                   polling))
     = [EvLog WARNING (MsgRateLimited "120");
        EvRequest
          (GET (ladder_url (quote_str "HC SSF Dawn of the Hunt"))
             sample_headers);
        EvLog ERROR (MsgLeaguesError RequestException);
        EvRequest (GET leagues_url sample_headers);
        EvLog INFO (MsgCheckingLadder "HC SSF Dawn of the Hunt")].
Proof. split; vm_compute; reflexivity. Qed.

(** A negative interval makes [time.sleep] raise: [main] logs the error
    and ends after the first cycle. *)
Example main_negative_interval :
  trace (snd (main_in [Answer (body 200 sample_token); NetworkFault;
                       NetworkFault]
                {| character_name := "Hero"; gamemode := "hc"; doth := true;
                   update := -1; output := "rank.txt"; debug := false;
                   client_id := Some "id"; client_secret := Some "secret" |}
                5 polling))
  = [EvLog ERROR (MsgUnexpected ValueError);
     EvLog INFO (MsgWaiting (-1));
     EvLog INFO MsgWroteEmpty;
     EvOpen "rank.txt";
     EvLog ERROR (MsgApiError RequestException);
     EvRequest
       (GET (ladder_url (quote_str "HC Dawn of the Hunt")) sample_headers);
     EvLog ERROR (MsgLeaguesError RequestException);
     EvRequest (GET leagues_url sample_headers);
     EvLog INFO (MsgCheckingLadder "HC Dawn of the Hunt");
     EvLog INFO (MsgInterval (-1) "rank.txt");
     EvLog INFO (MsgGameMode "hc" "HC Dawn of the Hunt");
     EvLog INFO (MsgStarting "Hero");
     EvRequest
       (POST token_url
          [("Content-Type", "application/x-www-form-urlencoded");
           ("User-Agent", user_agent)]
          [("client_id", PStr "id"); ("client_secret", PStr "secret");
           ("grant_type", PStr "client_credentials");
           ("scope", PStr "service:leagues service:leagues:ladder")]);
     EvPrint disclaimer].
Proof. vm_compute. reflexivity. Qed.

(** In debug mode a dump that cannot be written loses the result of the
    cycle: the [OSError] reaches the [except Exception] of line 252. *)
Example debug_dump_failure_loses_result :
  fst (get_character_rank no_float_truthy no_float_str containers dumps
         (answers_in_order (listing_then (body 200 sample_ladder)))
         (fun _ => false)
         "Standard" "Hero" (PStr "secret-token")
         {| fs := ∅; log_level := DEBUG; log_configured := true;
            trace := [] |})
  = Val None.
Proof. vm_compute. reflexivity. Qed.

(** ** The further properties in the sample worlds *)

Local Abbreviation unwritable := (fun _ : nat => false) (only parsing).
Local Abbreviation loop_in answers :=
  (poll_loop no_float_truthy no_float_str containers dumps
     (answers_in_order answers) writable rested) (only parsing).
Local Abbreviation hero :=
  {| level := @PInt Empty_set 92; rank := PInt 5; status := Some "DEAD" |}
  (only parsing).

Lemma write_output_open_fails_witness :
  write_output no_float_truthy no_float_str containers unwritable
    "poe2_rank.txt"
    (Some {| level := PInt 93; rank := PInt 4; status := None |})
    "Standard" resumed
  = (Val tt,
     {| fs := fs (@resumed Empty_set); log_level := INFO;
        log_configured := true;
        trace := [EvLog ERROR (MsgWriteError OSError);
                  EvOpen "poe2_rank.txt"] |})
  /\ fs (snd (write_output no_float_truthy no_float_str containers
                unwritable "poe2_rank.txt"
                (Some {| level := PInt 93; rank := PInt 4; status := None |})
                "Standard" resumed))
     = fs (@resumed Empty_set).
Proof.
  apply (write_output_open_fails no_float_truthy no_float_str containers
           unwritable "poe2_rank.txt"
           (Some {| level := PInt 93; rank := PInt 4; status := None |})
           "Standard" resumed).
  reflexivity.
Defined.

Lemma get_oauth_token_success_witness :
  fst (token_in [Answer (body 200 sample_token)] (Some "id") (Some "secret")
         fresh_process)
  = Val (PStr "secret-token")
  /\ fst (token_in [Answer (body 200 (PDict [("token_type", PStr "bearer")]))]
            (Some "id") (Some "secret") fresh_process)
     = Val PNone.
Proof.
  split.
  - apply (get_oauth_token_success no_float_truthy
             (answers_in_order [Answer (body 200 sample_token)])
             (Some "id") (Some "secret") fresh_process
             (body 200 sample_token)
             [("access_token", PStr "secret-token"); ("expires_in", PNone)]).
    + exists "id". split; [ reflexivity | discriminate ].
    + exists "secret". split; [ reflexivity | discriminate ].
    + reflexivity.
    + reflexivity.
    + reflexivity.
  - apply (get_oauth_token_success no_float_truthy
             (answers_in_order
                [Answer (body 200 (PDict [("token_type", PStr "bearer")]))])
             (Some "id") (Some "secret") fresh_process
             (body 200 (PDict [("token_type", PStr "bearer")]))
             [("token_type", PStr "bearer")]).
    + exists "id". split; [ reflexivity | discriminate ].
    + exists "secret". split; [ reflexivity | discriminate ].
    + reflexivity.
    + reflexivity.
    + reflexivity.
Defined.

Lemma get_oauth_token_failure_witness :
  (exists token,
      fst (token_in [NetworkFault] (Some "id") (Some "secret") fresh_process)
        = Val token
      /\ truthy no_float_truthy token = false)
  /\ (exists token,
         fst (token_in [Answer (not_json 401 "Unauthorized")]
                (Some "id") (Some "secret") fresh_process)
           = Val token
         /\ truthy no_float_truthy token = false)
  /\ (exists token,
         fst (token_in [Answer (body 200 (PList []))]
                (Some "id") (Some "secret") fresh_process)
           = Val token
         /\ truthy no_float_truthy token = false).
Proof.
  split; [ | split ].
  - apply (get_oauth_token_failure no_float_truthy
             (answers_in_order [NetworkFault])
             (Some "id") (Some "secret") fresh_process).
    + exists "id". split; [ reflexivity | discriminate ].
    + exists "secret". split; [ reflexivity | discriminate ].
    + apply token_fault.
  - apply (get_oauth_token_failure no_float_truthy
             (answers_in_order [Answer (not_json 401 "Unauthorized")])
             (Some "id") (Some "secret") fresh_process).
    + exists "id". split; [ reflexivity | discriminate ].
    + exists "secret". split; [ reflexivity | discriminate ].
    + apply token_bad_status. discriminate.
  - apply (get_oauth_token_failure no_float_truthy
             (answers_in_order [Answer (body 200 (PList []))])
             (Some "id") (Some "secret") fresh_process).
    + exists "id". split; [ reflexivity | discriminate ].
    + exists "secret". split; [ reflexivity | discriminate ].
    + apply token_not_object with (v := PList []); reflexivity.
Defined.

Lemma main_missing_credentials_witness :
  main_in [Answer (body 200 sample_token)] anonymous_args 5 fresh_process
  = (Val tt,
     {| fs := ∅; log_level := INFO; log_configured := true;
        trace := [EvLog ERROR MsgRunWithCredentials;
                  EvLog ERROR MsgVisitDocs;
                  EvLog ERROR MsgCouldNotObtainToken;
                  EvLog ERROR MsgCredentialsRequired;
                  EvPrint disclaimer] |})
  /\ requests (snd (main_in [Answer (body 200 sample_token)] anonymous_args 5
                      fresh_process))
     = [].
Proof.
  apply (main_missing_credentials no_float_truthy no_float_str containers
           dumps (answers_in_order [Answer (body 200 sample_token)])
           writable rested anonymous_args 5 fresh_process).
  left. left. reflexivity.
Defined.

Lemma main_token_failure_witness :
  main_in [Answer (not_json 401 "Unauthorized")] sample_args 3 fresh_process
  = (Val tt,
     {| fs := ∅; log_level := INFO; log_configured := true;
        trace := [EvLog ERROR MsgRunWithCredentials;
                  EvLog ERROR MsgVisitDocs;
                  EvLog ERROR MsgCouldNotObtainToken;
                  EvLog ERROR (MsgTokenStatus 401);
                  EvRequest (token_request (Some "id") (Some "secret"));
                  EvPrint disclaimer] |})
  /\ requests (snd (main_in [Answer (not_json 401 "Unauthorized")]
                      sample_args 3 fresh_process))
     = [EvRequest (token_request (Some "id") (Some "secret"))]
  /\ idle fresh_process
       (snd (main_in [Answer (not_json 401 "Unauthorized")] sample_args 3
               fresh_process)).
Proof.
  apply (main_token_failure no_float_truthy no_float_str containers dumps
           (answers_in_order [Answer (not_json 401 "Unauthorized")])
           writable rested sample_args 3 fresh_process).
  - exists "id". split; [ reflexivity | discriminate ].
  - exists "secret". split; [ reflexivity | discriminate ].
  - apply token_bad_status. discriminate.
Defined.

Lemma listed_league_is_requested_witness :
  (forall url hdrs,
      fst (lookup_in [Answer (body 200 coded_leagues);
                      Answer (body 200 sample_ladder)]
             "Standard" url hdrs polling)
      = Val (Continue (PStr "PL 4711")))
  /\ requests (snd (rank_in [Answer (body 200 coded_leagues);
                             Answer (body 200 sample_ladder)]
                      "Standard" "Hero" (PStr "secret-token") polling))
     = [EvRequest (GET (ladder_url "PL%204711") sample_headers);
        EvRequest (GET leagues_url sample_headers)].
Proof.
  apply (listed_league_is_requested no_float_truthy no_float_str containers
           dumps
           (answers_in_order [Answer (body 200 coded_leagues);
                              Answer (body 200 sample_ladder)])
           writable "Standard" "Hero" (PStr "secret-token") polling
           (body 200 coded_leagues)
           [("leagues",
             PList [PDict [("id", PStr "Hardcore");
                           ("name", PStr "Hardcore")];
                    PDict [("id", PStr "PL 4711");
                           ("name", PStr "Standard")];
                    PDict [("id", PStr "PL 4712");
                           ("name", PStr "Standard")]])]
           [PDict [("id", PStr "Hardcore"); ("name", PStr "Hardcore")]]
           [("id", PStr "PL 4711"); ("name", PStr "Standard")]
           [PDict [("id", PStr "PL 4712"); ("name", PStr "Standard")]]
           "PL 4711");
    [ reflexivity | reflexivity | reflexivity | reflexivity | reflexivity
    | reflexivity | reflexivity | reflexivity | discriminate ].
Defined.

Lemma found_is_sound_witness :
  exists r entries passed e c rest,
    truthy no_float_truthy (PStr "secret-token") = true
    /\ answers_in_order (listing_then (body 200 sample_ladder)) 1
       = Answer r
    /\ status_code r = 200
    /\ ladder_entries r = Val entries
    /\ py_iter entries = Val (passed ++ PDict e :: rest)%list
    /\ forallb (entry_passed "Hero") passed = true
    /\ get_default e "character" (PDict []) = PDict c
    /\ get_default c "name" (PStr "") = PStr "Hero"
    /\ hero = found_from no_float_truthy e c.
Proof.
  apply (found_is_sound no_float_truthy no_float_str containers dumps
           (answers_in_order (listing_then (body 200 sample_ladder)))
           writable "Standard" "Hero" (PStr "secret-token") polling hero).
  reflexivity.
Defined.

Lemma found_status_witness :
  status hero = None
  /\ (forall ladder_name,
         format_content no_float_truthy no_float_str containers hero
           ladder_name
         = "Level: " ++ py_str no_float_str containers (level hero)
             ++ " | Rank: " ++ py_str no_float_str containers (rank hero)
             ++ " | " ++ ladder_name)
  \/ (status hero = Some "DEAD" \/ status hero = Some "RETIRED")
     /\ (forall ladder_name,
            format_content no_float_truthy no_float_str containers hero
              ladder_name
            = "Level: " ++ py_str no_float_str containers (level hero)
                ++ " | Rank: ["
                ++ py_str no_float_str containers (of_option (status hero))
                ++ "] " ++ py_str no_float_str containers (rank hero)
                ++ " | " ++ ladder_name).
Proof.
  apply (found_status no_float_truthy no_float_str containers dumps
           (answers_in_order (listing_then (body 200 sample_ladder)))
           writable "Standard" "Hero" (PStr "secret-token") polling hero).
  reflexivity.
Defined.

Lemma poll_loop_cycles_witness :
  exists s',
    loop_in [Answer (body 200 sample_leagues);
             Answer (body 200 sample_ladder);
             Answer (not_json 503 "Service Unavailable");
             Answer (body 200 sample_leagues);
             Answer rate_limited]
      3 "Standard" "Hero" (PStr "secret-token") "poe2_rank.txt" 60000
      polling
    = (Exc KeyboardInterrupt, s')
    /\ nsleep s' = 3%nat
    /\ nwrites "poe2_rank.txt" s' = 3%nat
    /\ (3 <= nreq s')%nat
    /\ (nreq s' <= 6)%nat.
Proof.
  apply (poll_loop_cycles no_float_truthy no_float_str containers dumps
           (answers_in_order
              [Answer (body 200 sample_leagues);
               Answer (body 200 sample_ladder);
               Answer (not_json 503 "Service Unavailable");
               Answer (body 200 sample_leagues);
               Answer rate_limited])
           writable rested 3 "Standard" "Hero" (PStr "secret-token")
           "poe2_rank.txt" 60000 polling);
    [ reflexivity | unfold sleep_limit; lia | intros n; reflexivity
    | discriminate ].
Defined.

Lemma poll_loop_refused_interval_witness :
  (exists s',
      loop_in (listing_then (body 200 sample_ladder))
        5 "Standard" "Hero" (PStr "secret-token") "poe2_rank.txt" (-1)
        polling
      = (Exc ValueError, s')
      /\ nsleep s' = 0%nat
      /\ nwrites "poe2_rank.txt" s' = 1%nat)
  /\ (exists s',
         loop_in (listing_then (body 200 sample_ladder))
           5 "Standard" "Hero" (PStr "secret-token") "poe2_rank.txt"
           10000000000000 polling
         = (Exc OverflowError, s')
         /\ nsleep s' = 0%nat
         /\ nwrites "poe2_rank.txt" s' = 1%nat)
  /\ (exists s',
         loop_in (listing_then (body 200 sample_ladder))
           5 "Standard" "Hero" (PStr "secret-token") "poe2_rank.txt"
           (-10000000000000) polling
         = (Exc OverflowError, s')
         /\ nsleep s' = 0%nat
         /\ nwrites "poe2_rank.txt" s' = 1%nat).
Proof.
  split; [ | split ].
  - apply (poll_loop_refused_interval no_float_truthy no_float_str
             containers dumps
             (answers_in_order (listing_then (body 200 sample_ladder)))
             writable rested 4 "Standard" "Hero" (PStr "secret-token")
             "poe2_rank.txt" (-1) polling);
      [ left; lia | discriminate ].
  - apply (poll_loop_refused_interval no_float_truthy no_float_str
             containers dumps
             (answers_in_order (listing_then (body 200 sample_ladder)))
             writable rested 4 "Standard" "Hero" (PStr "secret-token")
             "poe2_rank.txt" 10000000000000 polling);
      [ right; unfold sleep_limit; lia | discriminate ].
  - apply (poll_loop_refused_interval no_float_truthy no_float_str
             containers dumps
             (answers_in_order (listing_then (body 200 sample_ladder)))
             writable rested 4 "Standard" "Hero" (PStr "secret-token")
             "poe2_rank.txt" (-10000000000000) polling);
      [ left; lia | discriminate ].
Defined.

Lemma main_returns_witness :
  fst (main_in [Answer (body 200 sample_token);
                Answer (body 200 sample_leagues);
                Answer (body 200 sample_ladder)]
         sample_args 2 fresh_process)
  = Val tt.
Proof.
  apply (main_returns no_float_truthy no_float_str containers dumps
           (answers_in_order [Answer (body 200 sample_token);
                              Answer (body 200 sample_leagues);
                              Answer (body 200 sample_ladder)])
           writable rested sample_args 2 fresh_process).
  apply Z.ltb_lt. vm_compute. reflexivity.
Defined.

Lemma main_interval_overflow_witness :
  fst (main_in [Answer (body 200 sample_token);
                Answer (body 200 sample_leagues);
                Answer (body 200 sample_ladder)]
         eternal_args 2 fresh_process)
  = Exc OverflowError
  /\ requests (snd (main_in [Answer (body 200 sample_token);
                             Answer (body 200 sample_leagues);
                             Answer (body 200 sample_ladder)]
                      eternal_args 2 fresh_process))
     = [EvRequest (token_request (Some "id") (Some "secret"))]
  /\ idle fresh_process
       (snd (main_in [Answer (body 200 sample_token);
                      Answer (body 200 sample_leagues);
                      Answer (body 200 sample_ladder)]
               eternal_args 2 fresh_process)).
Proof.
  apply (main_interval_overflow no_float_truthy no_float_str containers
           dumps
           (answers_in_order [Answer (body 200 sample_token);
                              Answer (body 200 sample_leagues);
                              Answer (body 200 sample_ladder)])
           writable rested eternal_args 2 fresh_process
           (body 200 sample_token)
           [("access_token", PStr "secret-token"); ("expires_in", PNone)]).
  - exists "id". split; [ reflexivity | discriminate ].
  - exists "secret". split; [ reflexivity | discriminate ].
  - reflexivity.
  - reflexivity.
  - reflexivity.
  - reflexivity.
  - apply Z.leb_le. vm_compute. reflexivity.
Defined.

Lemma main_negative_interval_one_cycle_witness :
  main_in [Answer (body 200 sample_token); NetworkFault; NetworkFault]
    hasty_args 5 fresh_process
  = main_in [Answer (body 200 sample_token); NetworkFault; NetworkFault]
      hasty_args 1 fresh_process.
Proof.
  apply (main_negative_interval_one_cycle no_float_truthy no_float_str
           containers dumps
           (answers_in_order
              [Answer (body 200 sample_token); NetworkFault; NetworkFault])
           writable rested hasty_args 4 fresh_process).
  reflexivity.
Defined.

Lemma main_files_witness :
  fs (snd (main_in [Answer (body 200 sample_token);
                    Answer (body 200 sample_leagues);
                    Answer (body 200 sample_ladder)]
             sample_args 2 resumed)) !! "notes.txt"
  = Some "keep".
Proof.
  apply (main_files no_float_truthy no_float_str containers dumps
           (answers_in_order [Answer (body 200 sample_token);
                              Answer (body 200 sample_leagues);
                              Answer (body 200 sample_ladder)])
           writable rested sample_args 2 resumed "notes.txt");
    discriminate.
Defined.

Lemma main_files_without_debug_witness :
  fs (snd (main_in [Answer (body 200 sample_token);
                    Answer (body 200 sample_leagues);
                    Answer (body 200 sample_ladder)]
             sample_args 2 fresh_process)) !! "ladder_debug.json"
  = None.
Proof.
  apply (main_files_without_debug no_float_truthy no_float_str containers
           dumps
           (answers_in_order [Answer (body 200 sample_token);
                              Answer (body 200 sample_leagues);
                              Answer (body 200 sample_ladder)])
           writable rested sample_args 2 fresh_process "ladder_debug.json");
    [ reflexivity | discriminate | discriminate ].
Defined.

Lemma get_league_name_injective_witness :
  get_league_name "hc" true <> "Unknown"
  /\ (get_league_name "hc" true = get_league_name "hcssf" false ->
      "hc" = "hcssf" /\ true = false).
Proof.
  apply (get_league_name_injective "hc" true "hcssf" false).
  - right. left. reflexivity.
  - right. right. right. left. reflexivity.
Defined.

Lemma debug_dump_witness :
  fs (snd (search_in [Answer (body 200 sample_ladder)] "Standard" "Hero"
             sample_headers (PStr "Standard") debugging))
  = <["ladder_debug.json" := "{...}"]> ∅
  /\ (fst (entry_search no_float_truthy dumps
             (answers_in_order [Answer (body 200 sample_ladder)]) unwritable
             "Standard" "Hero" sample_headers (PStr "Standard") debugging)
      = Exc OSError
      /\ fs (snd (entry_search no_float_truthy dumps
                    (answers_in_order [Answer (body 200 sample_ladder)])
                    unwritable "Standard" "Hero" sample_headers
                    (PStr "Standard") debugging))
         = ∅).
Proof.
  split.
  - apply (debug_dump no_float_truthy dumps
             (answers_in_order [Answer (body 200 sample_ladder)]) writable
             "Standard" "Hero" sample_headers "Standard" debugging
             (body 200 sample_ladder) sample_ladder);
      reflexivity.
  - apply (debug_dump no_float_truthy dumps
             (answers_in_order [Answer (body 200 sample_ladder)]) unwritable
             "Standard" "Hero" sample_headers "Standard" debugging
             (body 200 sample_ladder) sample_ladder);
      reflexivity.
Defined.
